(** * A shallow embedding of [model.py], the 0D global plasma model

    The development follows the Python file top to bottom:

    - Python's exceptions and the error monad the method bodies run in;
    - the arithmetic of the program, kept abstract (class [Arith]) so that
      every statement holds for IEEE doubles as well as for exact numbers;
    - the numpy / scipy operations the file calls ([linspace], [trapezoid],
      [interp1d]);
    - the names the file imports (class [Imports]);
    - the layout of the file (which [def] sits in which block), from which
      the attribute namespace of class [GlobalModel] is computed;
    - the bodies of the functions, one definition per [def];
    - a binary64 interpretation on which the model runs;
    - the properties. *)

From Stdlib Require Import ZArith QArith Floats Uint63 Lia.
From stdpp Require Import base option list gmap strings.

Set Default Proof Using "Type".

(** ** Exceptions and results *)

Inductive exn : Type :=
| AttributeError (name : string)
| NameError (name : string)
| KeyError (key : string)
| IndexError
| TypeError
| ValueError
| OSError.

Inductive res (A : Type) : Type :=
| Ok (a : A)
| Err (x : exn).
Arguments Ok {A} a.
Arguments Err {A} x.

#[global] Instance res_ret : MRet res := fun A a => Ok a.
#[global] Instance res_bind : MBind res :=
  fun A B f m => match m with Ok a => f a | Err x => Err x end.

(** The value of a result, or a default. *)
Definition get_or {A} (d : A) (r : res A) : A :=
  match r with Ok a => a | Err _ => d end.

Definition is_Ok {A} (r : res A) : Prop := exists a, r = Ok a.
Definition raises {A} (r : res A) : Prop := exists x, r = Err x.

(** ** Arithmetic

    The program computes with numpy doubles.  Its operations are the fields
    of a class and no law is assumed about them.  [lit] reads a numeric
    literal of the source; [np_sum] is numpy's array reduction (whose
    summation order is numpy's own); [lt] is the comparison [<].

    The operations are total, as numpy's are.  Python's own [**] and [/] on
    its floats raise [OverflowError] and [ZeroDivisionError] where numpy
    returns an infinity or a NaN, and the values of the configuration are
    Python numbers.  A statement about the value an expression returns is
    therefore to be read on the condition that Python returns one; the
    statements about exceptions below concern exceptions raised before any
    such arithmetic is reached. *)

Class Arith : Type := {
  num : Type;
  lit : Q -> num;
  add : num -> num -> num;
  sub : num -> num -> num;
  mul : num -> num -> num;
  div : num -> num -> num;
  neg : num -> num;
  pow : num -> num -> num;
  sqrt : num -> num;
  exp : num -> num;
  lt : num -> num -> bool;
  np_sum : list num -> num;
}.

Declare Scope py_scope.
Delimit Scope py_scope with py.
Notation "x + y" := (add x y) : py_scope.
Notation "x - y" := (sub x y) : py_scope.
Notation "x * y" := (mul x y) : py_scope.
Notation "x / y" := (div x y) : py_scope.
Notation "- x" := (neg x) : py_scope.
Notation "x ** y" := (pow x y) (at level 30, right associativity) : py_scope.

Definition lit_nat `{Arith} (n : nat) : num := lit (inject_Z (Z.of_nat n)).

(** ** numpy and scipy *)

Section Numpy.
Context `{Arith}.
Local Open Scope py_scope.

(** [a[i]] on an array: an index outside the array raises. *)
Definition index {A} (a : list A) (i : nat) : res A :=
  match a !! i with Some x => Ok x | None => Err IndexError end.

(** [a[-1]]. *)
Definition index_last {A} (a : list A) : res A :=
  match last a with Some x => Ok x | None => Err IndexError end.

(** [np.zeros(n)]. *)
Definition zeros (n : nat) : list num := replicate n (lit 0).

(** [np.linspace(start, stop, num)]: the samples [i * step + start] with
    [step = (stop - start) / (num - 1)], the last one overwritten by [stop].
    (numpy's separate path for a step that underflows to zero is left
    out.) *)
Definition linspace (start stop : num) (num_samples : N) : list num :=
  let n := N.to_nat num_samples in
  let delta := stop - start in
  let step := match (n - 1)%nat with O => delta | S _ => delta / lit_nat (n - 1) end in
  let y := map (fun i => lit_nat i * step + start) (seq 0 n) in
  if (1 <? n)%nat then <[(n - 1)%nat := stop]> y else y.

(** [np.diff(x)] is [x[1:] - x[:-1]]. *)
Definition diff (x : list num) : list num :=
  zip_with sub (drop 1 x) (take (length x - 1) x).

(** [scipy.integrate.trapezoid(y, x=x)]:
    [(d * (y[1:] + y[:-1]) / 2.0).sum()] with [d = diff(x)]. *)
Definition trapezoid (y x : list num) : num :=
  let d := diff x in
  np_sum (map (fun t => t / lit 2)
            (zip_with mul d (zip_with add (drop 1 y) (take (length y - 1) y)))).

(** [scipy.interpolate.interp1d]: the object keeps the samples and the two
    options the program sets. *)
Record interp1d : Type := Interp1d {
  ip_x : list num;
  ip_y : list num;
  fill_value : num * num;
  bounds_error : bool;
}.

(** [x_new < x[0]] and [x_new > x[-1]] on the sample points. *)
Definition below_bounds (xs : list num) (x_new : num) : bool :=
  match head xs with Some x0 => lt x_new x0 | None => false end.
Definition above_bounds (xs : list num) (x_new : num) : bool :=
  match last xs with Some xn => lt xn x_new | None => false end.

(** The argument lies in the closed interval of the sample points. *)
Definition in_range (xs : list num) (x_new : num) : bool :=
  negb (below_bounds xs x_new) && negb (above_bounds xs x_new).

(** Calling the interpolant.  With [bounds_error] set, an argument below
    the first or above the last sample raises [ValueError]; otherwise the
    fill values are returned there.  [kernel] is the interpolation proper
    on the stored samples. *)
Definition interp1d_call (kernel : list num -> list num -> num -> num)
    (f : interp1d) (x_new : num) : res num :=
  if bounds_error f && below_bounds (ip_x f) x_new then Err ValueError
  else if bounds_error f && above_bounds (ip_x f) x_new then Err ValueError
  else if below_bounds (ip_x f) x_new then Ok (fill_value f).1
  else if above_bounds (ip_x f) x_new then Ok (fill_value f).2
  else Ok (kernel (ip_x f) (ip_y f) x_new).
End Numpy.

(** ** The imported names

    [scipy.constants], [auxiliary_funcs] and [util] are not part of the file;
    the model takes what it imports from them as given.  [interp_linear] is
    scipy's linear interpolation on stored samples and [solve_ivp] its
    integrator, which receives the right-hand side, the time span and the
    initial state and yields the array [sol.y] (one row per state variable). *)

Class Imports (Ar : Arith) : Type := {
  m_e : num;
  e : num;
  pi : num;
  k : num;
  pressure : num -> num -> num -> num -> num;
  maxwellian_flux_speed : num -> num -> num;
  u_B : num -> num -> num;
  A_eff : num -> num -> num -> num;
  A_eff_1 : num -> num -> num -> num -> num;
  SIGMA_I : num;
  R_ind : num -> num -> num -> num -> num -> num -> num -> num;
  h_L : num -> num -> num;
  load_cross_section : string -> res (list num * list num);
  interp_linear : list num -> list num -> num -> num;
  solve_ivp : (num -> list num -> res (list num)) -> num * num -> list num ->
              res (list (list num));
}.

(** ** Layout of the file

    Only the block structure matters here: which [def] statements a block
    contains and where it returns.  [Stmts] stands for a run of statements
    that bind no function. *)

#[warnings="-register-all"]
Inductive stmt : Type :=
| ImportFrom (names : list string)
| ClassDef (name : string) (body : list stmt)
| FunctionDef (name : string) (body : list stmt)
| Stmts
| Return.

(** The names a block binds when it is executed top to bottom; nothing
    after a [return] is executed. *)
Fixpoint bound (block : list stmt) : list string :=
  match block with
  | [] => []
  | ImportFrom names :: rest => names ++ bound rest
  | ClassDef name _ :: rest => name :: bound rest
  | FunctionDef name _ :: rest => name :: bound rest
  | Stmts :: rest => bound rest
  | Return :: _ => []
  end.

(** The namespace of a class is what its body binds. *)
Fixpoint class_namespace (block : list stmt) (cls : string) : list string :=
  match block with
  | [] => []
  | ClassDef name body :: rest =>
      if decide (name = cls) then bound body else class_namespace rest cls
  | Return :: _ => []
  | _ :: rest => class_namespace rest cls
  end.

Definition model_py : list stmt :=
  [ ImportFrom ["np"];
    ImportFrom ["plt"];
    ImportFrom ["m_e"; "e"; "pi"; "k"; "eps_0"; "mu_0"];
    ImportFrom ["trapezoid"; "solve_ivp"; "odeint"];
    ImportFrom ["interp1d"];
    ImportFrom ["load_csv"; "load_cross_section"];
    ImportFrom ["pressure"; "maxwellian_flux_speed"; "u_B"; "A_eff"; "A_eff_1";
                "SIGMA_I"; "R_ind"; "h_L"];
    ClassDef "GlobalModel"
      [ FunctionDef "__init__" [Stmts];
        FunctionDef "load_chemistry" [Stmts];
        FunctionDef "rate_constant" [Stmts; Return];
        FunctionDef "load_config" [Stmts];
        FunctionDef "A_g" [Return];
        FunctionDef "A_i" [Return];
        FunctionDef "V" [Return];
        FunctionDef "A" [Return];
        FunctionDef "v_beam" [Return];
        FunctionDef "flux_i" [Return];
        FunctionDef "thrust_i" [Return];
        FunctionDef "j_i" [Return];
        FunctionDef "eval_property" [Stmts; Return];
        FunctionDef "P_loss" [Stmts; Return];
        FunctionDef "P_abs" [Return];
        FunctionDef "electron_heating" [Stmts; Return] ];
    FunctionDef "gas_heating"
      [ Stmts;
        Return;
        FunctionDef "particle_balance_e" [Stmts; Return];
        FunctionDef "particle_balance_g" [Stmts; Return];
        FunctionDef "P_rf" [Stmts; Return];
        FunctionDef "f_dy" [Stmts; Return];
        FunctionDef "solve" [Stmts; Return];
        FunctionDef "solve_for_I_coil" [Stmts; Return] ] ].

Definition GlobalModel_ns : list string := class_namespace model_py "GlobalModel".

(** ** Objects

    An instance is its attribute dictionary.  An attribute holds a number
    or an interpolant. *)

Inductive value `{Arith} : Type :=
| VNum (x : num)
| VInterp (f : interp1d).

Abbreviation obj := (gmap string value).

Section Model.
Context {Ar : Arith} {Im : Imports Ar}.
Local Open Scope py_scope.

(** [ns] is the namespace of the class of [self]: a name in it is bound
    to the function of that name in the file.  [G] holds the module-level
    names bound to numbers besides the imported ones; the file binds none,
    so the program as it stands runs with [G = ∅]. *)
Variable ns : list string.
Variable G : gmap string num.

(** *** Name resolution *)

(** [self.name]. *)
Definition attr (self : obj) (name : string) : res value :=
  match self !! name with
  | Some v => Ok v
  | None => Err (AttributeError name)
  end.

(** [self.name] used as a number. *)
Definition attr_num (self : obj) (name : string) : res num :=
  v ← attr self name;
  match v with VNum x => Ok x | VInterp _ => Err TypeError end.

(** [self.name(x)] where [name] is an attribute of the instance. *)
Definition attr_call (self : obj) (name : string) (x : num) : res num :=
  v ← attr self name;
  match v with
  | VInterp f => interp1d_call interp_linear f x
  | VNum _ => Err TypeError
  end.

(** [self.name(args)] for a function of the class: an instance attribute
    of that name shadows the function (and is not callable with these
    arguments); otherwise the class namespace decides. *)
Definition method {A} (self : obj) (name : string) (body : res A) : res A :=
  match self !! name with
  | Some _ => Err TypeError
  | None => if decide (name ∈ ns) then body else Err (AttributeError name)
  end.

(** [self.name(args)] for a function of the class whose body assigns
    attributes of [self]: the instance after the call next to the result.
    Where the name is not found nothing of the body is executed. *)
Definition method_call {A} (self : obj) (name : string) (body : obj * res A)
    : obj * res A :=
  match self !! name with
  | Some _ => (self, Err TypeError)
  | None => if decide (name ∈ ns) then body else (self, Err (AttributeError name))
  end.

(** [self.name] for a [@property] of the class. *)
Definition property (self : obj) (name : string) (getter : res num) : res num :=
  if decide (name ∈ ns) then getter else attr_num self name.

(** A bare name that the file does not import. *)
Definition global (name : string) : res num :=
  match G !! name with
  | Some x => Ok x
  | None => Err (NameError name)
  end.

(** [config_dict[key]]. *)
Definition getitem (config_dict : gmap string num) (key : string) : res num :=
  match config_dict !! key with
  | Some x => Ok x
  | None => Err (KeyError key)
  end.

(** *** [rate_constant] *)

Definition rate_constant (T_k E cs : list num) (m : num) : list num :=
  let T := map (fun t => t * k / e) T_k in
  let n_temperature := length T in
  let v := map (fun en => sqrt (lit 2 * en * e / m)) E in
  let k_rate := zeros n_temperature in
  foldl (fun k_rate i =>
           match T !! i with
           | Some Ti =>
               let a := (m / (lit 2 * pi * e * Ti)) ** (lit 3 / lit 2) * lit 4 * pi in
               let f := zip_with mul
                          (zip_with mul cs (map (fun x => x ** lit 3) v))
                          (map (fun x => exp (- m * x ** lit 2 / (lit 2 * e * Ti))) v) in
               <[i := trapezoid (map (mul a) f) v]> k_rate
           | None => k_rate
           end)
        k_rate (seq 0 n_temperature).

(** *** [load_chemistry] *)

Definition load_chemistry (self : obj) : res obj :=
  '(e_el, cs_el) ← load_cross_section "cross-sections/Xe/Elastic_Xe.csv";
  '(e_ex, cs_ex) ← load_cross_section "cross-sections/Xe/Excitation1_Xe.csv";
  '(e_iz, cs_iz) ← load_cross_section "cross-sections/Xe/Ionization_Xe.csv";
  let T := linspace (lit 0.1 * e / k) (lit 100 * e / k) 5000 in
  k_el_array ← method self "rate_constant" (Ok (rate_constant T e_el cs_el m_e));
  k_ex_array ← method self "rate_constant" (Ok (rate_constant T e_ex cs_ex m_e));
  k_iz_array ← method self "rate_constant" (Ok (rate_constant T e_iz cs_iz m_e));
  el_0 ← index k_el_array 0;
  el_n ← index_last k_el_array;
  let self := <["K_el" := VInterp (Interp1d T k_el_array (el_0, el_n) true)]> self in
  ex_0 ← index k_ex_array 0;
  ex_n ← index_last k_ex_array;
  let self := <["K_ex" := VInterp (Interp1d T k_ex_array (ex_0, ex_n) true)]> self in
  iz_0 ← index k_iz_array 0;
  iz_n ← index_last k_iz_array;
  let self := <["K_iz" := VInterp (Interp1d T k_iz_array (iz_0, iz_n) true)]> self in
  let self := <["E_iz" := VNum (lit 12.127 * e)]> self in
  let self := <["E_ex" := VNum (lit 11.6 * e)]> self in
  mret self.

(** *** Properties of the class *)

Definition A_g (self : obj) : res num :=
  beta_g ← attr_num self "beta_g";
  R ← attr_num self "R";
  mret (beta_g * pi * R ** lit 2).

Definition A_i (self : obj) : res num :=
  beta_i ← attr_num self "beta_i";
  R ← attr_num self "R";
  mret (beta_i * pi * R ** lit 2).

Definition V (self : obj) : res num :=
  R ← attr_num self "R";
  L ← attr_num self "L";
  mret (pi * R ** lit 2 * L).

Definition A (self : obj) : res num :=
  R ← attr_num self "R";
  R' ← attr_num self "R";
  L ← attr_num self "L";
  mret (lit 2 * pi * R ** lit 2 + lit 2 * pi * R' * L).

Definition v_beam (self : obj) : res num :=
  V_grid ← attr_num self "V_grid";
  m_i ← attr_num self "m_i";
  mret (sqrt (lit 2 * e * V_grid / m_i)).

(** *** Ion flux, thrust and current density *)

Definition flux_i (self : obj) (T_e T_g n_e n_g : num) : res num :=
  L ← attr_num self "L";
  m_i ← attr_num self "m_i";
  mret (h_L n_g L * n_e * u_B T_e m_i).

Definition thrust_i (self : obj) (T_e T_g n_e n_g : num) : res num :=
  flux ← method self "flux_i" (flux_i self T_e T_g n_e n_g);
  m_i ← attr_num self "m_i";
  v ← property self "v_beam" (v_beam self);
  Ai ← property self "A_i" (A_i self);
  mret (flux * m_i * v * Ai).

Definition j_i (self : obj) (T_e T_g n_e n_g : num) : res num :=
  flux ← method self "flux_i" (flux_i self T_e T_g n_e n_g);
  mret (flux * e).

(** *** [eval_property]

    [y] is a two-dimensional array, given by its rows; [func] is the
    callable the caller passes.  [eval_row] is what one turn of the loop
    assigns to [prop[i]]; an exception in a turn ends the loop. *)
Definition eval_row (func : num -> num -> num -> num -> res num)
    (y : list (list num)) (i : nat) : res num :=
  row ← index y i;
  T_e ← index row 0;
  row ← index y i;
  T_g ← index row 1;
  row ← index y i;
  n_e ← index row 2;
  row ← index y i;
  n_g ← index row 3;
  func T_e T_g n_e n_g.

Definition eval_property (func : num -> num -> num -> num -> res num)
    (y : list (list num)) : res (list num) :=
  let n_rows := length y in
  foldl (fun acc i =>
           prop ← acc;
           v ← eval_row func y i;
           mret (<[i := v]> prop))
        (Ok (zeros n_rows)) (seq 0 n_rows).

(** *** [load_config] *)

(** [self.key = config_dict[key]]. *)
Definition copy_key (config_dict : gmap string num) (key : string) (self : obj) : res obj :=
  x ← getitem config_dict key;
  mret (<[key := VNum x]> self).

Definition load_config (config_dict : gmap string num) (self : obj) : res obj :=
  self ← copy_key config_dict "R" self;
  self ← copy_key config_dict "L" self;
  self ← copy_key config_dict "m_i" self;
  self ← copy_key config_dict "Q_g" self;
  self ← copy_key config_dict "beta_g" self;
  self ← copy_key config_dict "kappa" self;
  self ← copy_key config_dict "beta_i" self;
  self ← copy_key config_dict "V_grid" self;
  self ← copy_key config_dict "omega" self;
  self ← copy_key config_dict "N" self;
  self ← copy_key config_dict "R_coil" self;
  self ← copy_key config_dict "I_coil" self;
  self ← copy_key config_dict "T_e_0" self;
  self ← copy_key config_dict "n_e_0" self;
  self ← copy_key config_dict "T_g_0" self;
  T_g_0 ← attr_num self "T_g_0";
  Q_g ← attr_num self "Q_g";
  T_g_0' ← attr_num self "T_g_0";
  m_i ← attr_num self "m_i";
  Ag ← property self "A_g" (A_g self);
  T_g_0'' ← attr_num self "T_g_0";
  mret (<["n_g_0" := VNum (pressure T_g_0 Q_g (maxwellian_flux_speed T_g_0' m_i) Ag
                             / (k * T_g_0''))]> self).

(** *** [__init__]: [GlobalModel(config_dict)] *)

Definition __init__ (config_dict : gmap string num) : res obj :=
  let self : obj := ∅ in
  self ← method self "load_chemistry" (load_chemistry self);
  method self "load_config" (load_config config_dict self).

(** *** Power balance *)

Definition P_loss (self : obj) (T_e T_g n_e n_g : num) : res num :=
  E_iz ← attr_num self "E_iz";
  K_iz ← attr_call self "K_iz" T_e;
  let a := E_iz * n_e * n_g * K_iz in
  E_ex ← attr_num self "E_ex";
  K_ex ← attr_call self "K_ex" T_e;
  let b := E_ex * n_e * n_g * K_ex in
  m_i ← attr_num self "m_i";
  K_el ← attr_call self "K_el" T_e;
  let c := lit 3 * (m_e / m_i) * k * (T_e - T_g) * n_e * n_g * K_el in
  m_i' ← attr_num self "m_i";
  R ← attr_num self "R";
  L ← attr_num self "L";
  Vol ← property self "V" (V self);
  let d := lit 7 * k * T_e * n_e * u_B T_e m_i' * A_eff n_g R L / Vol in
  K_diss ← attr_call self "K_diss" T_e;
  E_diss ← attr_num self "E_diss";
  let e_ := E_diss * n_e * n_g * K_diss in
  E_vibr ← global "E_vibr";
  K_vibr ← global "K_vibr";
  let f := E_vibr * n_e * n_g * K_vibr in
  mret (a + b + c + d + e_ + f).

Definition P_abs (self : obj) (T_e n_e n_g : num) : res num :=
  R ← attr_num self "R";
  L ← attr_num self "L";
  N ← attr_num self "N";
  omega ← attr_num self "omega";
  K_el ← attr_call self "K_el" T_e;
  I_coil ← attr_num self "I_coil";
  mret (R_ind R L N omega n_e n_g K_el * I_coil ** lit 2 / lit 2).

(** A bare name called as a function: the names the module binds are
    those of the imports, [GlobalModel] and [gas_heating]. *)
Definition module_function {A} (name : string) (body : res A) : res A :=
  if decide (name ∈ bound model_py) then body
  else match G !! name with
       | Some _ => Err TypeError
       | None => Err (NameError name)
       end.

(** [electron_heating] calls [P_abs] and [P_loss] by their bare names and
    reads a bare [T_g]. *)
Definition electron_heating (self : obj) (T_e n_e n_g : num) : res num :=
  p_abs ← module_function "P_abs" (P_abs self T_e n_e n_g);
  p_loss ← module_function "P_loss"
             (T_g ← global "T_g"; P_loss self T_e T_g n_e n_g);
  let power_balance := p_abs - p_loss in
  mret power_balance.

(** *** [gas_heating], the function at module level *)

Definition gas_heating (self : obj) (T_e T_g n_e n_g : num) : res num :=
  K_diss ← attr_call self "K_diss" T_e;
  K_vibr ← attr_call self "K_vibr" T_e;
  K_rot ← attr_call self "K_rot" T_e;
  m_i ← attr_num self "m_i";
  K_el ← attr_call self "K_el" T_e;
  let a := lit 3 * (m_e / m_i) * k * (T_e - T_g) * n_e * n_g * K_el in
  m_i' ← attr_num self "m_i";
  m_i'' ← attr_num self "m_i";
  m_i''' ← attr_num self "m_i";
  let b := (lit 1 / lit 4) * m_i' * (u_B T_e m_i'' ** lit 2) * n_e * n_g * SIGMA_I
           * maxwellian_flux_speed T_g m_i''' in
  E_diss ← global "E_diss";
  let c := E_diss * n_e * n_g * K_diss in
  E_vibr ← global "E_vibr";
  let d := E_vibr * n_e * n_g * K_vibr in
  E_rot ← global "E_rot";
  let e_ := E_rot * n_e * n_g * K_rot in
  R ← attr_num self "R";
  L ← attr_num self "L";
  let lambda_0 := R / lit 2.405 + L / pi in
  kappa ← attr_num self "kappa";
  T_g_0 ← attr_num self "T_g_0";
  Ar_ ← property self "A" (A self);
  Vol ← property self "V" (V self);
  let f := kappa * (T_g - T_g_0) * Ar_ / (Vol * lambda_0) in
  mret (a + b + c + d + e_ - f).

(** *** The functions written inside [gas_heating], after its [return] *)

Definition particle_balance_e (self : obj) (T_e T_g n_e n_g : num) : res num :=
  K_iz ← attr_call self "K_iz" T_e;
  let a := n_e * n_g * K_iz in
  m_i ← attr_num self "m_i";
  R ← attr_num self "R";
  L ← attr_num self "L";
  Vol ← property self "V" (V self);
  let b := n_e * u_B T_e m_i * A_eff n_g R L / Vol in
  mret (a - b).

Definition particle_balance_g (self : obj) (T_e T_g n_e n_g : num) : res num :=
  Q_g ← attr_num self "Q_g";
  Vol ← property self "V" (V self);
  let a := Q_g / Vol in
  m_i ← attr_num self "m_i";
  R ← attr_num self "R";
  L ← attr_num self "L";
  beta_i ← attr_num self "beta_i";
  Vol' ← property self "V" (V self);
  let b := n_e * u_B T_e m_i * A_eff_1 n_g R L beta_i / Vol' in
  K_iz ← attr_call self "K_iz" T_e;
  let c := n_e * n_g * K_iz in
  m_i' ← attr_num self "m_i";
  Ag ← property self "A_g" (A_g self);
  Vol'' ← property self "V" (V self);
  let d := (lit 1 / lit 4) * n_g * maxwellian_flux_speed T_g m_i' * Ag / Vol'' in
  mret (a + b - c - d).

Definition P_rf (self : obj) (T_e T_g n_e n_g : num) : res num :=
  R ← attr_num self "R";
  L ← attr_num self "L";
  N ← attr_num self "N";
  omega ← attr_num self "omega";
  K_el ← attr_call self "K_el" T_e;
  let R_ind_val := R_ind R L N omega n_e n_g K_el in
  R_coil ← attr_num self "R_coil";
  I_coil ← attr_num self "I_coil";
  mret ((lit 1 / lit 2) * (R_ind_val + R_coil) * I_coil ** lit 2).

Definition f_dy (self : obj) (t : num) (y : list num) : res (list num) :=
  T_e ← index y 0;
  T_g ← index y 1;
  n_e ← index y 2;
  n_g ← index y 3;
  pb_e ← method self "particle_balance_e" (particle_balance_e self T_e T_g n_e n_g);
  pb_g ← method self "particle_balance_g" (particle_balance_g self T_e T_g n_e n_g);
  let dy := zeros 4 in
  p_abs ← method self "P_abs" (P_abs self T_e n_e n_g);
  p_loss ← method self "P_loss" (P_loss self T_e T_g n_e n_g);
  let dy := <[0%nat := ((lit 2 / (lit 3 * k)) * (p_abs - p_loss) - T_e * pb_e) / n_e]> dy in
  g_heat ← method self "gas_heating" (gas_heating self T_e T_g n_e n_g);
  let dy := <[1%nat := ((lit 2 / (lit 3 * k)) * g_heat - T_g * pb_g) / n_g]> dy in
  let dy := <[2%nat := pb_e]> dy in
  let dy := <[3%nat := pb_g]> dy in
  mret dy.

Definition solve (self : obj) (t0 tf : num) : res (list (list num)) :=
  T_e_0 ← attr_num self "T_e_0";
  T_g_0 ← attr_num self "T_g_0";
  n_e_0 ← attr_num self "n_e_0";
  n_g_0 ← attr_num self "n_g_0";
  let y0 := [T_e_0; T_g_0; n_e_0; n_g_0] in
  rhs ← method self "f_dy" (Ok (f_dy self));
  solve_ivp rhs (t0, tf) y0.

(** [sol.y[j][-1]]. *)
Definition final (sol_y : list (list num)) (j : nat) : res num :=
  row ← index sol_y j;
  index_last row.

(** One turn of the loop of [solve_for_I_coil], after [self.I_coil = I]
    has been executed:
    the power and the final state of this sweep point. *)
Definition sweep_point (self : obj) : res (num * list num) :=
  sol_y ← method self "solve" (solve self (lit 0) (lit 5e-2));
  T_e ← final sol_y 0;
  T_g ← final sol_y 1;
  n_e ← final sol_y 2;
  n_g ← final sol_y 3;
  p_i ← method self "P_rf" (P_rf self T_e T_g n_e n_g);
  mret (p_i, [T_e; T_g; n_e; n_g]).

(** The [for i, I in enumerate(I_coil)] loop.  The assignment to
    [self.I_coil] survives an exception raised later in the turn, so the
    instance is returned next to the result. *)
Fixpoint sweep_loop (self : obj) (i : nat) (I_coil : list num)
    (p : list num) (solution : list (list num))
    : obj * res (list num * list (list num)) :=
  match I_coil with
  | [] => (self, Ok (p, solution))
  | I_i :: rest =>
      let self := <["I_coil" := VNum I_i]> self in
      match sweep_point self with
      | Ok (p_i, y_i) => sweep_loop self (S i) rest (<[i := p_i]> p) (<[i := y_i]> solution)
      | Err x => (self, Err x)
      end
  end.

Definition solve_for_I_coil (self : obj) (I_coil : list num)
    : obj * res (list num * list (list num)) :=
  let p := zeros (length I_coil) in
  let solution := replicate (length I_coil) (zeros 4) in
  sweep_loop self 0 I_coil p solution.
End Model.

(** ** The statements of the specification, in its own words *)

Section Spec.
Context {Ar : Arith} {Im : Imports Ar}.
Local Open Scope py_scope.

(** The temperature grid of the rate tables: 5000 samples from the
    equivalent of 0.1 eV to that of 100 eV. *)
Definition temperature_grid : list num :=
  linspace (lit 0.1 * e / k) (lit 100 * e / k) 5000.

(** Speeds of the energy axis of a cross-section curve (energies in eV). *)
Definition speeds (E : list num) (m : num) : list num :=
  map (fun en => sqrt (lit 2 * en * e / m)) E.

(** Maxwellian prefactor [(m / (2 pi T))^(3/2) * 4 pi] where the
    temperature in energy units is [e * T_eV]. *)
Definition maxwell_prefactor (m T_eV : num) : num :=
  (m / (lit 2 * pi * e * T_eV)) ** (lit 3 / lit 2) * lit 4 * pi.

(** The integrand [a(T) * sigma(v) * v^3 * exp(- m v^2 / (2 T))] sampled
    on the speeds of the curve. *)
Definition maxwell_integrand (E cs : list num) (m T_eV : num) : list num :=
  zip_with (fun sigma v =>
              maxwell_prefactor m T_eV
              * (sigma * v ** lit 3 * exp (- m * v ** lit 2 / (lit 2 * e * T_eV))))
           cs (speeds E m).

(** The rate constant at grid temperature [T_k] (kelvin): the trapezoidal
    quadrature of the integrand over the speeds. *)
Definition quadrature (E cs : list num) (m T_k : num) : num :=
  trapezoid (maxwell_integrand E cs m (T_k * k / e)) (speeds E m).

(** The four loss channels of the power balance, each from the values it
    reads on the instance: rate constants, thresholds, ion mass, geometry,
    volume. *)
Record loss_inputs : Type := LossInputs {
  in_E_iz : num; in_K_iz : num;
  in_E_ex : num; in_K_ex : num;
  in_m_i : num; in_K_el : num;
  in_R : num; in_L : num; in_V : num;
}.

Definition ionization_loss (i : loss_inputs) (n_e n_g : num) : num :=
  in_E_iz i * n_e * n_g * in_K_iz i.
Definition excitation_loss (i : loss_inputs) (n_e n_g : num) : num :=
  in_E_ex i * n_e * n_g * in_K_ex i.
Definition elastic_loss (i : loss_inputs) (T_e T_g n_e n_g : num) : num :=
  lit 3 * (m_e / in_m_i i) * k * (T_e - T_g) * n_e * n_g * in_K_el i.
Definition wall_loss (i : loss_inputs) (T_e n_e n_g : num) : num :=
  lit 7 * k * T_e * n_e * u_B T_e (in_m_i i) * A_eff n_g (in_R i) (in_L i) / in_V i.

Definition four_channel_loss (i : loss_inputs) (T_e T_g n_e n_g : num) : num :=
  ionization_loss i n_e n_g + excitation_loss i n_e n_g
  + elastic_loss i T_e T_g n_e n_g + wall_loss i T_e n_e n_g.

(** What [P_loss] reads for these four channels. *)
Definition read_loss_inputs (ns : list string) (self : obj) (T_e : num) : res loss_inputs :=
  E_iz ← attr_num self "E_iz";
  K_iz ← attr_call self "K_iz" T_e;
  E_ex ← attr_num self "E_ex";
  K_ex ← attr_call self "K_ex" T_e;
  m_i ← attr_num self "m_i";
  K_el ← attr_call self "K_el" T_e;
  R ← attr_num self "R";
  L ← attr_num self "L";
  Vol ← property ns self "V" (V self);
  mret (LossInputs E_iz K_iz E_ex K_ex m_i K_el R L Vol).

(** The temperature derivative of a channel by the product rule:
    [((2 / (3 k_B)) * power - T * density_rate) / n]. *)
Definition product_rule (power T density_rate n : num) : num :=
  ((lit 2 / (lit 3 * k)) * power - T * density_rate) / n.

(** The instance carries the rate table of a channel: an interpolant on
    the temperature grid whose samples are the quadratures of the curve
    loaded from [path], which raises outside the grid. *)
Definition rate_table_of (self : obj) (name path : string) : Prop :=
  exists E cs f,
    load_cross_section path = Ok (E, cs) /\
    self !! name = Some (VInterp f) /\
    ip_x f = temperature_grid /\
    ip_y f = map (quadrature E cs m_e) temperature_grid /\
    bounds_error f = true.
End Spec.

(** The keys [load_config] reads, the attributes the constructor sets, and
    the three files [load_chemistry] loads. *)
Definition config_keys : list string :=
  ["R"; "L"; "m_i"; "Q_g"; "beta_g"; "kappa"; "beta_i"; "V_grid"; "omega"; "N";
   "R_coil"; "I_coil"; "T_e_0"; "n_e_0"; "T_g_0"].
Definition attribute_names : list string :=
  ["K_el"; "K_ex"; "K_iz"; "E_iz"; "E_ex"] ++ config_keys ++ ["n_g_0"].
Definition path_el : string := "cross-sections/Xe/Elastic_Xe.csv".
Definition path_ex : string := "cross-sections/Xe/Excitation1_Xe.csv".
Definition path_iz : string := "cross-sections/Xe/Ionization_Xe.csv".
Definition rate_names : list string := ["K_el"; "K_ex"; "K_iz"].

(** The names of the functions the file writes after the [return] of
    [gas_heating], and [gas_heating] itself. *)
Definition misplaced : list string :=
  ["gas_heating"; "particle_balance_e"; "particle_balance_g"; "P_rf"; "f_dy";
   "solve"; "solve_for_I_coil"].

(** The class namespace the file would have with these functions in the
    class body. *)
Definition repaired_ns : list string := GlobalModel_ns ++ misplaced.

(** ** A binary64 interpretation

    numpy's doubles are Rocq's primitive floats.  [exp] and [**] are calls
    into the C library in numpy; here [exp x] is approximated by
    [(1 + x / 2^20)^(2^20)] and [**] is given for the three exponents the
    program uses.  The imported helpers are given simple closed forms. *)

Module Float64.
Local Open Scope float_scope.
#[local] Set Warnings "-inexact-float".

Definition of_Z (z : Z) : float :=
  let a := PrimFloat.of_uint63 (Uint63.of_Z (Z.abs z)) in
  if (z <? 0)%Z then - a else a.

Definition of_Q (q : Q) : float := of_Z (Qnum q) / of_Z (Zpos (Qden q)).

Fixpoint square_n (n : nat) (x : float) : float :=
  match n with
  | O => x
  | S n => let y := square_n n x in y * y
  end.

Definition exp_approx (x : float) : float := square_n 20 (1 + x / 1048576).

Definition pow_small (x y : float) : float :=
  if y =? 2 then x * x
  else if y =? 3 then x * x * x
  else if y =? 1.5 then x * PrimFloat.sqrt x
  else nan.

Definition sum_left (l : list float) : float := fold_left PrimFloat.add l 0.

Definition arith : Arith := {|
  num := float;
  lit := of_Q;
  add := PrimFloat.add;
  sub := PrimFloat.sub;
  mul := PrimFloat.mul;
  div := PrimFloat.div;
  neg := PrimFloat.opp;
  pow := pow_small;
  sqrt := PrimFloat.sqrt;
  exp := exp_approx;
  lt := PrimFloat.ltb;
  np_sum := sum_left;
|}.

(** Linear interpolation on sorted samples: the segment is found by
    counting the samples below the argument. *)
Fixpoint searchsorted (xs : list float) (x : float) : nat :=
  match xs with
  | [] => 0
  | a :: rest => if a <? x then S (searchsorted rest x) else 0
  end.

Definition linear (xs ys : list float) (x : float) : float :=
  let hi := Nat.max 1 (Nat.min (searchsorted xs x) (length xs - 1)) in
  let lo := (hi - 1)%nat in
  let x_lo := nth lo xs 0 in
  let x_hi := nth hi xs 0 in
  let y_lo := nth lo ys 0 in
  let y_hi := nth hi ys 0 in
  (y_hi - y_lo) / (x_hi - x_lo) * (x - x_lo) + y_lo.

(** A stand-in for the integrator: the right-hand side is evaluated once,
    at the initial state, and one explicit Euler step of a nanosecond is
    taken.  The result has the layout of [sol.y]: row [j] holds the initial
    and the final value of variable [j]. *)
Definition euler (rhs : float -> list float -> res (list float))
    (span : float * float) (y0 : list float) : res (list (list float)) :=
  dy ← rhs span.1 y0;
  let y1 := zip_with (fun y d => y + 1e-9 * d) y0 dy in
  mret (zip_with (fun a b => [a; b]) y0 y1).

Definition k_B : float := 1.380649e-23.
Definition q_e : float := 1.602176634e-19.
Definition pi64 : float := 0x1.921fb54442d18p+1.

Definition cross_section (path : string) : res (list float * list float) :=
  Ok ([0; 10; 20; 40], [1e-20; 2e-20; 4e-20; 3e-20]).

Definition m_e64 : float := 9.1093837015e-31.
Definition sigma_i64 : float := 1e-18.
Definition pressure64 (T Q v A_out : float) : float := 4 * k_B * T * Q / (v * A_out).
Definition thermal_speed64 (T m : float) : float := PrimFloat.sqrt (8 * k_B * T / (pi64 * m)).
Definition bohm64 (T m : float) : float := PrimFloat.sqrt (k_B * T / m).
Definition area64 (n_g R L : float) : float := 2 * pi64 * R * R + 2 * pi64 * R * L.
Definition area1_64 (n_g R L beta_i : float) : float :=
  (2 - beta_i) * pi64 * R * R + 2 * pi64 * R * L.
Definition resistance64 (R L N omega n_e n_g K_el : float) : float := 2.
Definition h_L64 (n_g L : float) : float := 0.5.

Definition imports : Imports arith := {|
  m_e := m_e64 : @num arith;
  e := q_e : @num arith;
  pi := pi64 : @num arith;
  k := k_B : @num arith;
  pressure := pressure64 : @num arith -> _;
  maxwellian_flux_speed := thermal_speed64 : @num arith -> _;
  u_B := bohm64 : @num arith -> _;
  A_eff := area64 : @num arith -> _;
  A_eff_1 := area1_64 : @num arith -> _;
  SIGMA_I := sigma_i64 : @num arith;
  R_ind := resistance64 : @num arith -> _;
  h_L := h_L64 : @num arith -> _;
  load_cross_section := cross_section : string -> res (list (@num arith) * list (@num arith));
  interp_linear := linear : list (@num arith) -> _;
  solve_ivp := euler : (@num arith -> _) -> _;
|}.

(** The same imports with one cross-section file that cannot be read. *)
Definition cross_section_unreadable (missing path : string)
    : res (list float * list float) :=
  if decide (path = missing) then Err OSError else cross_section path.

Definition imports_unreadable (missing : string) : Imports arith := {|
  m_e := m_e64 : @num arith;
  e := q_e : @num arith;
  pi := pi64 : @num arith;
  k := k_B : @num arith;
  pressure := pressure64 : @num arith -> _;
  maxwellian_flux_speed := thermal_speed64 : @num arith -> _;
  u_B := bohm64 : @num arith -> _;
  A_eff := area64 : @num arith -> _;
  A_eff_1 := area1_64 : @num arith -> _;
  SIGMA_I := sigma_i64 : @num arith;
  R_ind := resistance64 : @num arith -> _;
  h_L := h_L64 : @num arith -> _;
  load_cross_section :=
    cross_section_unreadable missing
    : string -> res (list (@num arith) * list (@num arith));
  interp_linear := linear : list (@num arith) -> _;
  solve_ivp := euler : (@num arith -> _) -> _;
|}.
End Float64.

(** ** Concrete inputs *)

Module Run.
#[local] Existing Instance Float64.arith.
#[local] Existing Instance Float64.imports.
Local Open Scope float_scope.
#[local] Set Warnings "-inexact-float".

(** A configuration with every key of [load_config]. *)
Definition config_dict : gmap string float :=
  list_to_map
    [ ("R", 0.06); ("L", 0.1);
      ("m_i", 2.18e-25); ("Q_g", 1.2e19); ("beta_g", 0.3); ("kappa", 0.0057);
      ("beta_i", 0.7); ("V_grid", 1000);
      ("omega", 8.5e7); ("N", 5); ("R_coil", 2); ("I_coil", 26);
      ("T_e_0", 30000); ("n_e_0", 1e17); ("T_g_0", 300) ].

(** The same configuration with a zero initial electron density. *)
Definition config_zero_density : gmap string float := <["n_e_0" := 0]> config_dict.

(** The setting in which the misplaced functions run: they are in the
    class namespace, and the names of the extended chemistry are defined,
    as attributes where the file reads attributes and as module-level
    numbers where it reads bare names. *)
Definition constant_rate (c : float) : value :=
  VInterp (Interp1d [0; 1e9] [c; c] (c, c) true).

Definition extended (self : obj) : obj :=
  <["K_diss" := constant_rate 1e-20]>
    (<["K_vibr" := constant_rate 2e-20]>
       (<["K_rot" := constant_rate 3e-20]>
          (<["E_diss" := VNum 1.5e-18]> self))).

Definition extended_globals : gmap string float :=
  list_to_map [ ("E_diss", 1.5e-18); ("E_vibr", 4e-20); ("E_rot", 1e-21);
                ("K_vibr", 2e-20) ].

(** The instance the constructor builds in that namespace, with the
    attributes of the extended chemistry added. *)
Definition model_repaired : obj :=
  Eval vm_compute in extended (get_or ∅ (__init__ repaired_ns config_dict)).

(** A state inside the temperature grid. *)
Definition y_state : list float := [30000; 300; 1e17; 1e19].
(** The same state with no electrons. *)
Definition y_no_electrons : list float := [30000; 300; 0; 1e19].
End Run.

(** ** The error monad *)

Lemma bind_Ok {A B} (m : res A) (f : A -> res B) (b : B) :
  m ≫= f = Ok b -> exists a, m = Ok a /\ f a = Ok b.
Proof. destruct m as [a|x]; [eauto | discriminate]. Qed.

Lemma bind_Ok_eq {A B} (m : res A) (f : A -> res B) (a : A) :
  m = Ok a -> m ≫= f = f a.
Proof. by intros ->. Qed.

Lemma bind_Err {A B} (m : res A) (f : A -> res B) (x : exn) :
  m = Err x -> m ≫= f = Err x.
Proof. by intros ->. Qed.

Section Arrays.
Context {Ar : Arith}.

Lemma length_zeros n : length (zeros n) = n.
Proof. apply length_replicate. Qed.

Lemma length_linspace start stop n :
  length (linspace start stop n) = N.to_nat n.
Proof.
  unfold linspace. case_match; rewrite ?length_insert, length_map, length_seq; done.
Qed.

Lemma last_linspace start stop n :
  (1 < n)%N -> last (linspace start stop n) = Some stop.
Proof.
  intros Hn. unfold linspace.
  destruct (Nat.ltb_spec 1 (N.to_nat n)) as [_|?]; [|lia].
  rewrite last_lookup, length_insert, length_map, length_seq.
  replace (Nat.pred (N.to_nat n)) with (N.to_nat n - 1) by lia.
  apply list_lookup_insert_eq. rewrite length_map, length_seq. lia.
Qed.

Lemma lookup_linspace start stop n i :
  S i < N.to_nat n ->
  linspace start stop n !! i
  = Some (lit_nat i * ((stop - start) / lit_nat (N.to_nat n - 1)) + start)%py.
Proof.
  intros Hi. unfold linspace.
  destruct (Nat.ltb_spec 1 (N.to_nat n)) as [_|?]; [|lia].
  rewrite list_lookup_insert_ne by lia.
  rewrite list_lookup_fmap, lookup_seq_lt by lia. simpl.
  destruct (N.to_nat n - 1) eqn:E; [lia|]. done.
Qed.
End Arrays.

(** ** Loops that fill an array *)

Section Fill.
Context {A B : Type}.

(** The loop [for i in range(n): out[i] = g(T[i])] over an array [out] of
    the length of [T] leaves [g] mapped over [T]. *)
Lemma fill_loop_prefix (g : A -> B) (T : list A) (out : list B) (j : nat) :
  length out = length T -> j <= length T ->
  foldl (fun acc i => match T !! i with
                      | Some t => <[i := g t]> acc
                      | None => acc
                      end) out (seq 0 j)
  = map g (take j T) ++ drop j out.
Proof.
  intros Hlen. induction j as [|j IH]; intros Hj.
  - by rewrite take_0, drop_0.
  - rewrite seq_S, foldl_app, IH by lia. simpl.
    destruct (lookup_lt_is_Some_2 T j) as [t Ht]; [lia|].
    rewrite Ht.
    destruct (lookup_lt_is_Some_2 out j) as [b Hb]; [lia|].
    rewrite (drop_S out b j Hb).
    rewrite (take_S_r T j t Ht), map_app. simpl.
    rewrite <- (assoc_L (++)). simpl.
    rewrite insert_app_r_alt; rewrite length_map, length_take; [|lia].
    replace (j - j `min` length T) with 0 by lia. done.
Qed.

Lemma fill_loop (g : A -> B) (T : list A) (out : list B) :
  length out = length T ->
  foldl (fun acc i => match T !! i with
                      | Some t => <[i := g t]> acc
                      | None => acc
                      end) out (seq 0 (length T))
  = map g T.
Proof.
  intros Hlen. rewrite fill_loop_prefix by lia.
  rewrite firstn_all, drop_ge by lia. apply app_nil_r.
Qed.
End Fill.

Section RateConstant.
Context {Ar : Arith} {Im : Imports Ar}.

Lemma scaled_product (a : num) (f g : num -> num) (cs v : list num) :
  map (mul a) (zip_with mul (zip_with mul cs (map f v)) (map g v))
  = zip_with (fun sigma x => a * (sigma * f x * g x))%py cs v.
Proof.
  revert v. induction cs as [|c cs IH]; intros [|x v]; simpl; try done.
  by rewrite IH.
Qed.

(** The loop of [rate_constant] computes the quadrature at every grid
    temperature. *)
Lemma rate_constant_quadrature (T_k E cs : list num) (m : num) :
  rate_constant T_k E cs m = map (quadrature E cs m) T_k.
Proof.
  unfold rate_constant.
  rewrite length_map.
  set (g := fun Ti : num =>
    trapezoid
      (map (mul ((m / (lit 2 * pi * e * Ti)) ** (lit 3 / lit 2) * lit 4 * pi)%py)
         (zip_with mul
            (zip_with mul cs (map (fun x => x ** lit 3)%py
                                (map (fun en => sqrt (lit 2 * en * e / m))%py E)))
            (map (fun x => exp (- m * x ** lit 2 / (lit 2 * e * Ti)))%py
               (map (fun en => sqrt (lit 2 * en * e / m))%py E))))
      (map (fun en => sqrt (lit 2 * en * e / m))%py E)).
  rewrite <- (length_map (fun t => t * k / e)%py T_k).
  rewrite (fill_loop g) by (by rewrite length_zeros).
  rewrite <- list_fmap_compose. apply map_ext. intros Tk.
  unfold g, quadrature, maxwell_integrand, maxwell_prefactor, speeds. simpl.
  by rewrite scaled_product.
Qed.

Lemma length_rate_constant T_k E cs m :
  length (rate_constant T_k E cs m) = length T_k.
Proof. by rewrite rate_constant_quadrature, length_map. Qed.

Lemma length_temperature_grid : length temperature_grid = N.to_nat 5000.
Proof. apply length_linspace. Qed.
End RateConstant.

Section Resolution.
Context {Ar : Arith} {Im : Imports Ar}.
Variable ns : list string.

Lemma method_Ok {A} (self : obj) name (body : res A) a :
  method ns self name body = Ok a ->
  self !! name = None /\ name ∈ ns /\ body = Ok a.
Proof.
  unfold method. destruct (self !! name); [discriminate|].
  case_decide; [done | discriminate].
Qed.

Lemma method_bound {A} (self : obj) name (body : res A) :
  self !! name = None -> name ∈ ns -> method ns self name body = body.
Proof. unfold method. intros -> ?. by case_decide. Qed.

Lemma method_unbound {A} (self : obj) name (body : res A) :
  self !! name = None -> name ∉ ns ->
  method ns self name body = Err (AttributeError name).
Proof. unfold method. intros -> ?. by case_decide. Qed.
End Resolution.

Ltac inv_bind H :=
  let a := fresh "a" in
  let Ha := fresh "H" a in
  apply bind_Ok in H as (a & Ha & H).


Section Constructor.
Context {Ar : Arith} {Im : Imports Ar}.
Variable ns : list string.

Lemma copy_key_inv cfg key (self self' : obj) :
  copy_key cfg key self = Ok self' ->
  exists x, cfg !! key = Some x /\ self' = <[key := VNum x]> self.
Proof.
  unfold copy_key, getitem. intros H. inv_bind H.
  destruct (cfg !! key) as [x|]; [|discriminate].
  injection Ha as ->. injection H as <-. eauto.
Qed.

Lemma Ok_inj {A} (a b : A) : Ok a = Ok b -> a = b.
Proof. by intros [= ->]. Qed.

Lemma index_Ok {A} (a : list A) i x : index a i = Ok x -> a !! i = Some x.
Proof. unfold index. destruct (a !! i); congruence. Qed.

Lemma rate_table_intro (m : obj) name path E cs grid k_array fv :
  load_cross_section path = Ok (E, cs) ->
  m !! name = Some (VInterp (Interp1d grid k_array fv true)) ->
  grid = temperature_grid ->
  rate_constant grid E cs m_e = k_array ->
  rate_table_of m name path.
Proof.
  intros Hload Hm -> <-.
  exists E, cs, (Interp1d temperature_grid (rate_constant temperature_grid E cs m_e) fv true).
  split; [exact Hload|]. split; [exact Hm|].
  split; [reflexivity|]. split; [|reflexivity].
  exact (rate_constant_quadrature temperature_grid E cs m_e).
Qed.

(** What the constructor leaves on the instance. *)
Lemma init_attrs cfg (m : obj) :
  __init__ ns cfg = Ok m ->
  rate_table_of m "K_el" path_el /\
  rate_table_of m "K_ex" path_ex /\
  rate_table_of m "K_iz" path_iz /\
  m !! "E_iz" = Some (VNum (lit 12.127 * e)%py) /\
  m !! "E_ex" = Some (VNum (lit 11.6 * e)%py) /\
  Forall (fun key => exists x, cfg !! key = Some x /\ m !! key = Some (VNum x))
         config_keys /\
  (exists x, m !! "n_g_0" = Some (VNum x)) /\
  (forall name, name ∉ attribute_names -> m !! name = None).
Proof.
  unfold __init__. cbv zeta. intros H.
  inv_bind H. apply method_Ok in Ha as (_ & _ & Hchem).
  apply method_Ok in H as (_ & _ & Hconf).
  unfold load_chemistry in Hchem.
  pose proof (eq_refl temperature_grid) as Hgrid.
  unfold temperature_grid in Hgrid at 1.
  set (grid := linspace _ _ _) in Hchem, Hgrid.
  clearbody grid.
  inv_bind Hchem. destruct a0 as [e_el cs_el].
  inv_bind Hchem. destruct a0 as [e_ex cs_ex].
  inv_bind Hchem. destruct a0 as [e_iz cs_iz].
  cbv zeta in Hchem.
  apply bind_Ok in Hchem as (k_el & Hel & Hchem).
  apply method_Ok in Hel as (_ & _ & Hel). apply Ok_inj in Hel.
  apply bind_Ok in Hchem as (k_ex & Hex & Hchem).
  apply method_Ok in Hex as (_ & _ & Hex). apply Ok_inj in Hex.
  apply bind_Ok in Hchem as (k_iz & Hiz & Hchem).
  apply method_Ok in Hiz as (_ & _ & Hiz). apply Ok_inj in Hiz.
  do 6 inv_bind Hchem. apply Ok_inj in Hchem. subst a.
  unfold load_config in Hconf.
  repeat (let H' := fresh "Hk" in
          apply bind_Ok in Hconf as (? & H' & Hconf);
          apply copy_key_inv in H' as (? & ? & ->)).
  do 6 inv_bind Hconf. apply Ok_inj in Hconf. subst m.
  split_and!.
  - eapply rate_table_intro; [exact Ha0 | vm_compute; reflexivity | exact Hgrid | exact Hel].
  - eapply rate_table_intro; [exact Ha1 | vm_compute; reflexivity | exact Hgrid | exact Hex].
  - eapply rate_table_intro; [exact Ha2 | vm_compute; reflexivity | exact Hgrid | exact Hiz].
  - (vm_compute; reflexivity).
  - (vm_compute; reflexivity).
  - unfold config_keys. repeat (apply Forall_cons; split); [..| apply Forall_nil];
      eexists; (split; [eassumption | vm_compute; reflexivity]).
  - eexists. apply lookup_insert_eq.
  - intros name Hn. unfold attribute_names, config_keys in Hn. simpl in Hn.
    repeat (apply not_elem_of_cons in Hn as [? Hn]).
    rewrite !lookup_insert_ne by done. apply lookup_empty.
Qed.
End Constructor.

Ltac step := cbn [mbind res_bind mret res_ret].

Section Reads.
Context {Ar : Arith} {Im : Imports Ar}.

Lemma attr_num_Some (self : obj) name x :
  self !! name = Some (VNum x) -> attr_num self name = Ok x.
Proof. unfold attr_num, attr. by intros ->. Qed.

Lemma attr_call_None (self : obj) name T :
  self !! name = None -> attr_call self name T = Err (AttributeError name).
Proof. unfold attr_call, attr. by intros ->. Qed.

Lemma interp1d_call_raising (f : interp1d) T :
  bounds_error f = true ->
  interp1d_call interp_linear f T
  = if in_range (ip_x f) T then Ok (interp_linear (ip_x f) (ip_y f) T)
    else Err ValueError.
Proof.
  unfold interp1d_call, in_range. intros ->.
  destruct (below_bounds (ip_x f) T), (above_bounds (ip_x f) T); reflexivity.
Qed.

(** Calling a rate table: the value inside the grid, [ValueError]
    outside. *)
Lemma attr_call_rate_table (self : obj) name path T :
  rate_table_of self name path ->
  exists ys,
    attr_call self name T
    = if in_range temperature_grid T
      then Ok (interp_linear temperature_grid ys T) else Err ValueError.
Proof.
  intros (E & cs & f & _ & Hf & Hx & Hy & Hb). exists (ip_y f).
  unfold attr_call, attr. rewrite Hf. step.
  rewrite interp1d_call_raising by exact Hb. by rewrite Hx.
Qed.
End Reads.

(** ** The namespaces of the file *)

Lemma GlobalModel_ns_eq :
  GlobalModel_ns
  = ["__init__"; "load_chemistry"; "rate_constant"; "load_config"; "A_g"; "A_i";
     "V"; "A"; "v_beam"; "flux_i"; "thrust_i"; "j_i"; "eval_property"; "P_loss";
     "P_abs"; "electron_heating"].
Proof. reflexivity. Qed.

Lemma module_names_eq :
  bound model_py
  = ["np"; "plt"; "m_e"; "e"; "pi"; "k"; "eps_0"; "mu_0"; "trapezoid";
     "solve_ivp"; "odeint"; "interp1d"; "load_csv"; "load_cross_section";
     "pressure"; "maxwellian_flux_speed"; "u_B"; "A_eff"; "A_eff_1"; "SIGMA_I";
     "R_ind"; "h_L"; "GlobalModel"; "gas_heating"].
Proof. reflexivity. Qed.

(** Membership in a list of names, by computation. *)
Ltac name_in := apply (bool_decide_unpack _); vm_compute; exact I.
Ltac name_not_in :=
  let H := fresh in
  intros H; apply (bool_decide_pack _) in H; vm_compute in H; exact H.

Lemma misplaced_not_in_class name : name ∈ misplaced -> name ∉ GlobalModel_ns.
Proof.
  unfold misplaced. intros H.
  repeat (apply elem_of_cons in H as [-> | H]; [name_not_in |]).
  by apply elem_of_nil in H.
Qed.

Lemma misplaced_not_attribute name : name ∈ misplaced -> name ∉ attribute_names.
Proof.
  unfold misplaced. intros H.
  repeat (apply elem_of_cons in H as [-> | H]; [name_not_in |]).
  by apply elem_of_nil in H.
Qed.

Section Constructed.
Context {Ar : Arith} {Im : Imports Ar}.
Variable ns : list string.
Variable cfg : gmap string num.
Variable m : obj.
Hypothesis Hinit : __init__ ns cfg = Ok m.

Lemma constructed_key key :
  key ∈ config_keys -> exists x, m !! key = Some (VNum x).
Proof using Hinit.
  intros Hkey.
  destruct (init_attrs ns cfg m Hinit) as (_ & _ & _ & _ & _ & HF & _).
  rewrite Forall_forall in HF. destruct (HF key Hkey) as (x & _ & Hx). eauto.
Qed.

Lemma constructed_absent name : name ∉ attribute_names -> m !! name = None.
Proof using Hinit.
  destruct (init_attrs ns cfg m Hinit) as (_ & _ & _ & _ & _ & _ & _ & Hn).
  apply Hn.
Qed.
End Constructed.

(** ** The program as it stands: [GlobalModel_ns] and no extra globals *)

Section AsWritten.
Context {Ar : Arith} {Im : Imports Ar}.
Variable cfg : gmap string num.
Variable m : obj.
Hypothesis Hinit : __init__ GlobalModel_ns cfg = Ok m.

Lemma property_V : property GlobalModel_ns m "V" (V m) = V m.
Proof. unfold property. case_decide as H; [done|]. exfalso. apply H. name_in. Qed.

Lemma V_constructed : is_Ok (V m).
Proof using Hinit.
  destruct (constructed_key _ _ _ Hinit "R") as [R HR]; [name_in|].
  destruct (constructed_key _ _ _ Hinit "L") as [L HL]; [name_in|].
  unfold V. rewrite (attr_num_Some _ _ _ HR). step.
  rewrite (attr_num_Some _ _ _ HL). step. eexists; reflexivity.
Qed.

(** Outside the grid every rate table raises; inside none does. *)
Lemma rate_call name path T :
  rate_table_of m name path ->
  (in_range temperature_grid T = false -> attr_call m name T = Err ValueError) /\
  (in_range temperature_grid T = true -> is_Ok (attr_call m name T)).
Proof.
  intros Ht. destruct (attr_call_rate_table m name path T Ht) as [ys ->].
  split; intros ->; [reflexivity | eexists; reflexivity].
Qed.

(** [gas_heating] stops at its first statement. *)
Lemma gas_heating_undefined G T_e T_g n_e n_g :
  gas_heating GlobalModel_ns G m T_e T_g n_e n_g = Err (AttributeError "K_diss").
Proof using Hinit.
  unfold gas_heating.
  rewrite (attr_call_None m "K_diss"); [reflexivity|].
  apply (constructed_absent _ _ _ Hinit). name_not_in.
Qed.

(** [P_loss] never returns; inside the grid it stops at [self.K_diss]. *)
Lemma P_loss_undefined G T_e T_g n_e n_g :
  raises (P_loss GlobalModel_ns G m T_e T_g n_e n_g) /\
  (in_range temperature_grid T_e = true ->
   P_loss GlobalModel_ns G m T_e T_g n_e n_g = Err (AttributeError "K_diss")).
Proof using Hinit.
  destruct (init_attrs _ _ _ Hinit) as (Hel & Hex & Hiz & HEiz & HEex & _).
  destruct (constructed_key _ _ _ Hinit "m_i") as [m_i Hmi]; [name_in|].
  destruct (constructed_key _ _ _ Hinit "R") as [R HR]; [name_in|].
  destruct (constructed_key _ _ _ Hinit "L") as [L HL]; [name_in|].
  destruct V_constructed as [Vol HV].
  destruct (attr_call_rate_table m _ _ T_e Hel) as [y_el Cel].
  destruct (attr_call_rate_table m _ _ T_e Hex) as [y_ex Cex].
  destruct (attr_call_rate_table m _ _ T_e Hiz) as [y_iz Ciz].
  assert (Hdiss : attr_call m "K_diss" T_e = Err (AttributeError "K_diss")).
  { apply attr_call_None, (constructed_absent _ _ _ Hinit). name_not_in. }
  unfold P_loss.
  rewrite (attr_num_Some _ _ _ HEiz), Ciz. step.
  destruct (in_range temperature_grid T_e).
  - step. rewrite (attr_num_Some _ _ _ HEex), Cex. step.
    rewrite (attr_num_Some _ _ _ Hmi), Cel. step.
    rewrite (attr_num_Some _ _ _ HR), (attr_num_Some _ _ _ HL). step.
    rewrite property_V, HV. step. rewrite Hdiss. step.
    split; [eexists; reflexivity | done].
  - step. split; [eexists; reflexivity | done].
Qed.
End AsWritten.

(** ** The bodies, given that what they call returns *)

Section Bodies.
Context {Ar : Arith} {Im : Imports Ar}.
Variable ns : list string.
Variable G : gmap string num.

Lemma global_Some name x : G !! name = Some x -> global G name = Ok x.
Proof. unfold global. by intros ->. Qed.

(** [P_loss] adds the dissociation and the vibrational term to the four
    channels. *)
Lemma P_loss_value (self : obj) T_e T_g n_e n_g i K_diss E_diss E_vibr K_vibr :
  read_loss_inputs ns self T_e = Ok i ->
  attr_call self "K_diss" T_e = Ok K_diss ->
  attr_num self "E_diss" = Ok E_diss ->
  G !! "E_vibr" = Some E_vibr ->
  G !! "K_vibr" = Some K_vibr ->
  P_loss ns G self T_e T_g n_e n_g
  = Ok (four_channel_loss i T_e T_g n_e n_g
        + E_diss * n_e * n_g * K_diss + E_vibr * n_e * n_g * K_vibr)%py.
Proof.
  intros Hi HKd HEd HEv HKv. unfold read_loss_inputs in Hi.
  apply bind_Ok in Hi as (E_iz & HEiz & Hi).
  apply bind_Ok in Hi as (K_iz & HKiz & Hi).
  apply bind_Ok in Hi as (E_ex & HEex & Hi).
  apply bind_Ok in Hi as (K_ex & HKex & Hi).
  apply bind_Ok in Hi as (m_i & Hmi & Hi).
  apply bind_Ok in Hi as (K_el & HKel & Hi).
  apply bind_Ok in Hi as (R & HR & Hi).
  apply bind_Ok in Hi as (L & HL & Hi).
  apply bind_Ok in Hi as (Vol & HV & Hi).
  apply Ok_inj in Hi. subst i.
  unfold P_loss.
  rewrite HEiz, HKiz, HEex, HKex, Hmi, HKel, HR, HL, HV, HKd, HEd.
  rewrite (global_Some _ _ HEv), (global_Some _ _ HKv).
  reflexivity.
Qed.

(** [P_rf] is half the squared current times the inductive resistance
    plus the resistance of the coil. *)
Lemma P_rf_inv (self : obj) T_e T_g n_e n_g p :
  P_rf self T_e T_g n_e n_g = Ok p ->
  exists R L N omega K_el R_coil I_coil,
    attr_num self "R" = Ok R /\ attr_num self "L" = Ok L /\
    attr_num self "N" = Ok N /\ attr_num self "omega" = Ok omega /\
    attr_call self "K_el" T_e = Ok K_el /\
    attr_num self "R_coil" = Ok R_coil /\ attr_num self "I_coil" = Ok I_coil /\
    p = ((lit 1 / lit 2) * (R_ind R L N omega n_e n_g K_el + R_coil)
         * I_coil ** lit 2)%py.
Proof.
  unfold P_rf. intros H.
  apply bind_Ok in H as (R & HR & H).
  apply bind_Ok in H as (L & HL & H).
  apply bind_Ok in H as (N & HN & H).
  apply bind_Ok in H as (omega & Ho & H).
  apply bind_Ok in H as (K_el & HK & H). cbv zeta in H.
  apply bind_Ok in H as (R_coil & HRc & H).
  apply bind_Ok in H as (I_coil & HI & H).
  apply Ok_inj in H. by exists R, L, N, omega, K_el, R_coil, I_coil.
Qed.

(** [P_abs] leaves the resistance of the coil out. *)
Lemma P_abs_value (self : obj) T_e n_e n_g R L N omega K_el I_coil :
  attr_num self "R" = Ok R -> attr_num self "L" = Ok L ->
  attr_num self "N" = Ok N -> attr_num self "omega" = Ok omega ->
  attr_call self "K_el" T_e = Ok K_el -> attr_num self "I_coil" = Ok I_coil ->
  P_abs self T_e n_e n_g
  = Ok (R_ind R L N omega n_e n_g K_el * I_coil ** lit 2 / lit 2)%py.
Proof. unfold P_abs. by intros -> -> -> -> -> ->. Qed.

(** [f_dy] divides by the densities as they are: whatever [n_e] and [n_g]
    are, the result is the vector of the four quotients and rates. *)
Lemma f_dy_value (self : obj) t T_e T_g n_e n_g pb_e pb_g p_abs p_loss g_heat :
  method ns self "particle_balance_e" (particle_balance_e ns self T_e T_g n_e n_g)
    = Ok pb_e ->
  method ns self "particle_balance_g" (particle_balance_g ns self T_e T_g n_e n_g)
    = Ok pb_g ->
  method ns self "P_abs" (P_abs self T_e n_e n_g) = Ok p_abs ->
  method ns self "P_loss" (P_loss ns G self T_e T_g n_e n_g) = Ok p_loss ->
  method ns self "gas_heating" (gas_heating ns G self T_e T_g n_e n_g) = Ok g_heat ->
  f_dy ns G self t [T_e; T_g; n_e; n_g]
  = Ok [product_rule (p_abs - p_loss)%py T_e pb_e n_e;
        product_rule g_heat T_g pb_g n_g; pb_e; pb_g].
Proof.
  intros He Hg Ha Hl Hh. unfold f_dy, index. simpl lookup. step.
  rewrite He. step. rewrite Hg. step. rewrite Ha. step. rewrite Hl. step.
  rewrite Hh. step. reflexivity.
Qed.
End Bodies.

(** ** The sweep loop *)

Section Sweep.
Context {Ar : Arith} {Im : Imports Ar}.
Variable ns : list string.
Variable G : gmap string num.

(** The loop assigns [self.I_coil] and nothing else. *)
Lemma sweep_loop_frame I_coil (self : obj) i p solution name :
  name ≠ "I_coil" ->
  (sweep_loop ns G self i I_coil p solution).1 !! name = self !! name.
Proof.
  intros Hname. revert self i p solution.
  induction I_coil as [|I_i rest IH]; intros self i p solution; [done|].
  cbn [sweep_loop].
  destruct (sweep_point ns G (<["I_coil" := VNum I_i]> self)) as [[p_i y_i]|x].
  - rewrite IH. by apply lookup_insert_ne.
  - by apply lookup_insert_ne.
Qed.

(** After a sweep that returns, [self.I_coil] is the last current. *)
Lemma sweep_loop_last I_coil (self : obj) i p solution r I_n :
  (sweep_loop ns G self i I_coil p solution).2 = Ok r ->
  last I_coil = Some I_n ->
  (sweep_loop ns G self i I_coil p solution).1 !! "I_coil" = Some (VNum I_n).
Proof.
  revert self i p solution.
  induction I_coil as [|I_i rest IH]; intros self i p solution; [done|].
  cbn [sweep_loop].
  destruct (sweep_point ns G (<["I_coil" := VNum I_i]> self)) as [[p_i y_i]|x];
    [|discriminate].
  intros Hr Hlast. destruct rest as [|I' rest'].
  - injection Hlast as <-. apply lookup_insert_eq.
  - by apply IH.
Qed.

(** Entry [i + j] of the two output arrays holds the power and the final
    state of the sweep point run with the [j]-th current, each point run
    on the instance the sweep was given with only [I_coil] replaced. *)
Lemma sweep_loop_results I_coil (self : obj) i p solution p' solution' :
  (sweep_loop ns G self i I_coil p solution).2 = Ok (p', solution') ->
  i + length I_coil <= length p ->
  i + length I_coil <= length solution ->
  (forall j, j < i -> p' !! j = p !! j /\ solution' !! j = solution !! j) /\
  (forall j I_j, I_coil !! j = Some I_j ->
     exists p_j y_j,
       sweep_point ns G (<["I_coil" := VNum I_j]> self) = Ok (p_j, y_j) /\
       p' !! (i + j) = Some p_j /\ solution' !! (i + j) = Some y_j).
Proof.
  revert self i p solution.
  induction I_coil as [|I_i rest IH]; intros self i p solution.
  - cbn [sweep_loop snd]. intros [= <- <-] _ _. split; [done|].
    intros j I_j Hj. by rewrite lookup_nil in Hj.
  - cbn [sweep_loop length].
    destruct (sweep_point ns G (<["I_coil" := VNum I_i]> self))
      as [[p_i y_i]|x] eqn:Hpoint; [|discriminate].
    intros Hr Hp Hs.
    apply IH in Hr as [Hkeep Hrest]; rewrite ?length_insert; [|lia..].
    split.
    + intros j Hj. destruct (Hkeep j) as [-> ->]; [lia|].
      rewrite !list_lookup_insert_ne by lia. done.
    + intros [|j] I_j Hj.
      * injection Hj as <-. exists p_i, y_i.
        rewrite Nat.add_0_r.
        destruct (Hkeep i) as [-> ->]; [lia|].
        rewrite !list_lookup_insert_eq by lia. done.
      * destruct (Hrest j I_j Hj) as (p_j & y_j & Hpt & Hpj & Hyj).
        rewrite insert_insert_eq in Hpt.
        exists p_j, y_j. by rewrite <- Nat.add_succ_comm.
Qed.

Lemma solve_for_I_coil_results (self : obj) I_coil p solution :
  (solve_for_I_coil ns G self I_coil).2 = Ok (p, solution) ->
  forall j I_j, I_coil !! j = Some I_j ->
    exists p_j y_j,
      sweep_point ns G (<["I_coil" := VNum I_j]> self) = Ok (p_j, y_j) /\
      p !! j = Some p_j /\ solution !! j = Some y_j.
Proof.
  unfold solve_for_I_coil. intros H j I_j Hj.
  apply sweep_loop_results in H as [_ H];
    rewrite ?length_zeros, ?length_replicate; [|lia..].
  apply (H j I_j Hj).
Qed.
End Sweep.

(** ** The constructor returns *)

Section Total.
Context {Ar : Arith} {Im : Imports Ar}.

Lemma ret_bind {A B} (a : A) (f : A -> res B) : Ok a ≫= f = f a.
Proof. reflexivity. Qed.

Lemma index_nonempty {A} (a : list A) :
  0 < length a -> is_Ok (index a 0) /\ is_Ok (index_last a).
Proof.
  intros Hlen. unfold index, index_last. split.
  - destruct a as [|x a]; [simpl in Hlen; lia|]. eexists; reflexivity.
  - destruct (last a) as [x|] eqn:Hlast; [eexists; reflexivity|].
    apply last_None in Hlast. subst a. simpl in Hlen. lia.
Qed.

(** [load_chemistry] returns when the three files load, and sets the five
    chemistry attributes only. *)
Lemma load_chemistry_total ns (self : obj) :
  "rate_constant" ∈ ns -> self !! "rate_constant" = None ->
  is_Ok (load_cross_section path_el) ->
  is_Ok (load_cross_section path_ex) ->
  is_Ok (load_cross_section path_iz) ->
  exists self',
    load_chemistry ns self = Ok self' /\
    forall name, name ∉ ["K_el"; "K_ex"; "K_iz"; "E_iz"; "E_ex"] ->
                 self' !! name = self !! name.
Proof.
  intros Hns Hself [[e_el cs_el] Hel] [[e_ex cs_ex] Hex] [[e_iz cs_iz] Hiz].
  unfold path_el, path_ex, path_iz in *.
  unfold load_chemistry.
  set (grid := linspace _ _ _).
  assert (Hgrid : 0 < length grid) by (unfold grid; rewrite length_linspace; lia).
  clearbody grid.
  rewrite Hel, ret_bind, Hex, ret_bind, Hiz, ret_bind. cbv zeta.
  rewrite !(method_bound ns self "rate_constant") by assumption.
  pose proof (length_rate_constant grid e_el cs_el m_e) as Lel.
  pose proof (length_rate_constant grid e_ex cs_ex m_e) as Lex.
  pose proof (length_rate_constant grid e_iz cs_iz m_e) as Liz.
  set (k_el := rate_constant grid e_el cs_el m_e) in *. clearbody k_el.
  set (k_ex := rate_constant grid e_ex cs_ex m_e) in *. clearbody k_ex.
  set (k_iz := rate_constant grid e_iz cs_iz m_e) in *. clearbody k_iz.
  rewrite !ret_bind.
  destruct (index_nonempty k_el ltac:(lia)) as [[? ->] [? ->]].
  destruct (index_nonempty k_ex ltac:(lia)) as [[? ->] [? ->]].
  destruct (index_nonempty k_iz ltac:(lia)) as [[? ->] [? ->]].
  rewrite !ret_bind. eexists. split; [reflexivity|].
  intros name Hname. repeat (apply not_elem_of_cons in Hname as [? Hname]).
  by rewrite !lookup_insert_ne by done.
Qed.

Lemma copy_key_Some cfg key x (self : obj) :
  cfg !! key = Some x -> copy_key cfg key self = Ok (<[key := VNum x]> self).
Proof. unfold copy_key, getitem. by intros ->. Qed.

Lemma load_config_total ns cfg (self : obj) :
  "A_g" ∈ ns ->
  Forall (fun key => is_Some (cfg !! key)) config_keys ->
  is_Ok (load_config ns cfg self).
Proof.
  unfold config_keys. intros Hns HF.
  repeat (apply Forall_cons in HF as [[? ?] HF]).
  unfold load_config.
  repeat (erewrite copy_key_Some by eassumption; rewrite ret_bind).
  set (self' := <["T_g_0" := _]> _).
  assert (HT : self' !! "T_g_0" = Some (VNum x13)) by apply lookup_insert_eq.
  assert (HQ : self' !! "Q_g" = Some (VNum x2)).
  { unfold self'. rewrite !lookup_insert_ne by done. apply lookup_insert_eq. }
  assert (Hm : self' !! "m_i" = Some (VNum x1)).
  { unfold self'. rewrite !lookup_insert_ne by done. apply lookup_insert_eq. }
  assert (Hb : self' !! "beta_g" = Some (VNum x3)).
  { unfold self'. rewrite !lookup_insert_ne by done. apply lookup_insert_eq. }
  assert (HR : self' !! "R" = Some (VNum x)).
  { unfold self'. rewrite !lookup_insert_ne by done. apply lookup_insert_eq. }
  clearbody self'.
  rewrite !(attr_num_Some self' "T_g_0" _ HT), ret_bind.
  rewrite (attr_num_Some self' "Q_g" _ HQ), !ret_bind.
  rewrite (attr_num_Some self' "m_i" _ Hm), ret_bind.
  unfold property. case_decide; [|done]. unfold A_g.
  rewrite (attr_num_Some self' "beta_g" _ Hb), ret_bind.
  rewrite (attr_num_Some self' "R" _ HR), !ret_bind.
  eexists; reflexivity.
Qed.

(** With every key in the configuration and the three files readable the
    constructor returns an instance. *)
Lemma init_total ns cfg :
  "load_chemistry" ∈ ns -> "rate_constant" ∈ ns -> "load_config" ∈ ns ->
  "A_g" ∈ ns ->
  is_Ok (load_cross_section path_el) ->
  is_Ok (load_cross_section path_ex) ->
  is_Ok (load_cross_section path_iz) ->
  Forall (fun key => is_Some (cfg !! key)) config_keys ->
  is_Ok (__init__ ns cfg).
Proof.
  intros H1 H2 H3 H4 Hel Hex Hiz Hcfg. unfold __init__. cbv zeta.
  rewrite method_bound by (done || apply lookup_empty).
  destruct (load_chemistry_total ns ∅ H2 (lookup_empty _) Hel Hex Hiz)
    as (self & Hself & Hframe).
  rewrite Hself, ret_bind.
  rewrite method_bound; [by apply load_config_total | | done].
  rewrite Hframe; [apply lookup_empty | name_not_in].
Qed.
End Total.

(** ** The misplaced functions, called on an instance of the file as it is *)

Section Unreachable.
Context {Ar : Arith} {Im : Imports Ar}.
Variable cfg : gmap string num.
Variable m : obj.
Hypothesis Hinit : __init__ GlobalModel_ns cfg = Ok m.

Lemma misplaced_unbound {A} name (body : res A) :
  name ∈ misplaced ->
  method GlobalModel_ns m name body = Err (AttributeError name).
Proof using Hinit.
  intros Hname. apply method_unbound.
  - apply (constructed_absent _ _ _ Hinit). by apply misplaced_not_attribute.
  - by apply misplaced_not_in_class.
Qed.

(** The body of [f_dy] stops at its first call. *)
Lemma f_dy_undefined G t T_e T_g n_e n_g rest :
  f_dy GlobalModel_ns G m t (T_e :: T_g :: n_e :: n_g :: rest)
  = Err (AttributeError "particle_balance_e").
Proof using Hinit.
  unfold f_dy, index. simpl lookup. step.
  rewrite (misplaced_unbound "particle_balance_e"); [reflexivity | name_in].
Qed.

(** The body of the sweep stops in its first turn, after the assignment
    to [self.I_coil]. *)
Lemma sweep_undefined G I_0 rest :
  solve_for_I_coil GlobalModel_ns G m (I_0 :: rest)
  = (<["I_coil" := VNum I_0]> m, Err (AttributeError "solve")).
Proof using Hinit.
  unfold solve_for_I_coil. cbv zeta. cbn [sweep_loop].
  unfold sweep_point. rewrite method_unbound; [reflexivity | | name_not_in].
  rewrite lookup_insert_ne by done.
  apply (constructed_absent _ _ _ Hinit). name_not_in.
Qed.

Lemma method_call_unbound {A} name (body : obj * res A) :
  name ∈ misplaced ->
  method_call GlobalModel_ns m name body = (m, Err (AttributeError name)).
Proof using Hinit.
  intros Hname. unfold method_call.
  rewrite (constructed_absent _ _ _ Hinit) by by apply misplaced_not_attribute.
  case_decide as Hns; [|reflexivity].
  by apply misplaced_not_in_class in Hname.
Qed.

(** The values of the four loss channels can all be read inside the
    grid. *)
Lemma read_loss_inputs_constructed T_e :
  in_range temperature_grid T_e = true ->
  is_Ok (read_loss_inputs GlobalModel_ns m T_e).
Proof using Hinit.
  intros Hin.
  destruct (init_attrs _ _ _ Hinit) as (Hel & Hex & Hiz & HEiz & HEex & _).
  destruct (constructed_key _ _ _ Hinit "m_i") as [m_i Hmi]; [name_in|].
  destruct (constructed_key _ _ _ Hinit "R") as [R HR]; [name_in|].
  destruct (constructed_key _ _ _ Hinit "L") as [L HL]; [name_in|].
  destruct (V_constructed _ _ Hinit) as [Vol HV].
  destruct (attr_call_rate_table m _ _ T_e Hel) as [y_el Cel].
  destruct (attr_call_rate_table m _ _ T_e Hex) as [y_ex Cex].
  destruct (attr_call_rate_table m _ _ T_e Hiz) as [y_iz Ciz].
  rewrite Hin in Cel, Cex, Ciz.
  unfold read_loss_inputs.
  rewrite (attr_num_Some _ _ _ HEiz), ret_bind, Ciz, ret_bind.
  rewrite (attr_num_Some _ _ _ HEex), ret_bind, Cex, ret_bind.
  rewrite (attr_num_Some _ _ _ Hmi), ret_bind, Cel, ret_bind.
  rewrite (attr_num_Some _ _ _ HR), ret_bind, (attr_num_Some _ _ _ HL), ret_bind.
  rewrite property_V, HV, ret_bind. eexists; reflexivity.
Qed.

(** [gas_heating], called as the module-level function it is. *)
Lemma gas_heating_module_call G T_e T_g n_e n_g :
  module_function G "gas_heating" (gas_heating GlobalModel_ns G m T_e T_g n_e n_g)
  = Err (AttributeError "K_diss").
Proof using Hinit.
  unfold module_function. case_decide as Hb.
  - apply (gas_heating_undefined _ _ Hinit).
  - exfalso. apply Hb. name_in.
Qed.
End Unreachable.

(** ** Runs in binary64 *)

Section Runs.
#[local] Existing Instance Float64.arith.
#[local] Existing Instance Float64.imports.
Local Open Scope float_scope.
#[local] Set Warnings "-inexact-float".

Lemma cross_sections_load path : is_Ok (load_cross_section path).
Proof. eexists; reflexivity. Qed.

(** The constructor returns on the configuration of the runs. *)
Lemma model_exists : is_Ok (__init__ GlobalModel_ns Run.config_dict).
Proof.
  apply init_total; first [apply cross_sections_load | name_in].
Qed.

Lemma model_zero_density_exists :
  is_Ok (__init__ GlobalModel_ns Run.config_zero_density).
Proof.
  apply init_total; first [apply cross_sections_load | name_in].
Qed.

Lemma grid_contains_30000 : in_range temperature_grid 30000 = true.
Proof. vm_compute. reflexivity. Qed.
End Runs.

Section Claims.
Context {Ar : Arith} {Im : Imports Ar}.

(** C3: on every instance the constructor returns, the temperature grid has
    5000 samples, from the equivalent of 0.1 eV ([0.1 e / k]) in equal
    steps to that of 100 eV, the last sample being [100 e / k] itself; and
    each of [K_el], [K_ex], [K_iz] is an interpolant on that grid whose
    sample at a grid temperature is the trapezoidal quadrature, over the
    speeds of the curve loaded from its file, of the Maxwellian integrand:
    the same grid and the same quadrature for the three channels. *)
Theorem rate_tables_quadrature (cfg : gmap string num) (m : obj) :
  __init__ GlobalModel_ns cfg = Ok m ->
  length temperature_grid = N.to_nat 5000 /\
  (forall i, S i < N.to_nat 5000 ->
     temperature_grid !! i
     = Some (lit_nat i * ((lit 100 * e / k - lit 0.1 * e / k)
                          / lit_nat (N.to_nat 5000 - 1))
             + lit 0.1 * e / k)%py) /\
  last temperature_grid = Some (lit 100 * e / k)%py /\
  rate_table_of m "K_el" path_el /\
  rate_table_of m "K_ex" path_ex /\
  rate_table_of m "K_iz" path_iz.
Proof.
  intros Hinit.
  destruct (init_attrs _ _ _ Hinit) as (Hel & Hex & Hiz & _).
  split_and!; try assumption.
  - apply length_linspace.
  - intros i Hi. by apply lookup_linspace.
  - by apply last_linspace.
Qed.

(** C5: the three rate tables follow one policy outside the grid: for each
    of [K_el], [K_ex], [K_iz] and every temperature, a call outside the
    grid raises [ValueError] (no clamping), and a call inside the grid
    returns. *)
Theorem rate_tables_raise_outside_grid (cfg : gmap string num) (m : obj) :
  __init__ GlobalModel_ns cfg = Ok m ->
  forall name, name ∈ ["K_el"; "K_ex"; "K_iz"] ->
  forall T,
    (in_range temperature_grid T = false -> attr_call m name T = Err ValueError) /\
    (in_range temperature_grid T = true -> is_Ok (attr_call m name T)).
Proof.
  intros Hinit name Hname T.
  destruct (init_attrs _ _ _ Hinit) as (Hel & Hex & Hiz & _).
  repeat (apply elem_of_cons in Hname as [-> | Hname];
          [eapply rate_call; eassumption |]).
  by apply elem_of_nil in Hname.
Qed.

(** C10: [gas_heating] is bound at module level and the six functions
    written after its [return] are bound nowhere in the module; none of the
    seven names is in the namespace of the class, so on every constructed
    instance a call of any of them as a method raises [AttributeError] for
    that name, whatever the body and the arguments are. *)
Theorem misplaced_functions_unreachable (cfg : gmap string num) (m : obj) :
  __init__ GlobalModel_ns cfg = Ok m ->
  "gas_heating" ∈ bound model_py /\
  (forall name, name ∈ misplaced -> name ≠ "gas_heating" -> name ∉ bound model_py) /\
  (forall name, name ∈ misplaced ->
     (name ∉ GlobalModel_ns) /\
     forall (A : Type) (body : res A),
       method GlobalModel_ns m name body = Err (AttributeError name)).
Proof.
  intros Hinit. split; [name_in|]. split.
  - unfold misplaced. intros name H Hne.
    repeat (apply elem_of_cons in H as [-> | H]; [first [done | name_not_in] |]).
    by apply elem_of_nil in H.
  - intros name H. split; [by apply misplaced_not_in_class|].
    intros A body. apply method_unbound.
    + apply (constructed_absent _ _ _ Hinit). by apply misplaced_not_attribute.
    + by apply misplaced_not_in_class.
Qed.

End Claims.

Section ClaimRuns.
#[local] Existing Instance Float64.arith.
#[local] Existing Instance Float64.imports.
Local Open Scope float_scope.
#[local] Set Warnings "-inexact-float".

(** C1: the state derivative cannot be evaluated.  On the instance built
    from the configuration of the runs, [f_dy] is not an attribute
    ([AttributeError]); its body, run on that instance, stops at its first
    call, [self.particle_balance_e]; and the power loss and the gas heating
    it would use raise [AttributeError] for [K_diss]. *)
Theorem f_dy_unreachable_as_written :
  exists m,
    __init__ GlobalModel_ns Run.config_dict = Ok m /\
    method GlobalModel_ns m "f_dy" (f_dy GlobalModel_ns ∅ m 0 Run.y_state)
      = Err (AttributeError "f_dy") /\
    f_dy GlobalModel_ns ∅ m 0 Run.y_state
      = Err (AttributeError "particle_balance_e") /\
    P_loss GlobalModel_ns ∅ m 30000 300 1e17 1e19 = Err (AttributeError "K_diss") /\
    gas_heating GlobalModel_ns ∅ m 30000 300 1e17 1e19
      = Err (AttributeError "K_diss").
Proof.
  destruct model_exists as [m Hm]. exists m. split; [exact Hm|]. split_and!.
  - apply (misplaced_unbound _ _ Hm). name_in.
  - apply (f_dy_undefined _ _ Hm).
  - apply (P_loss_undefined _ _ Hm). exact grid_contains_30000.
  - apply (gas_heating_undefined _ _ Hm).
Qed.

(** C4: the sweep cannot be run.  On the instance built from the
    configuration of the runs, [solve_for_I_coil] is not an attribute
    ([AttributeError]); its body, run on that instance with the currents 1
    and 2, assigns [self.I_coil = 1] and stops at [self.solve] without an
    output array. *)
Theorem sweep_unreachable_as_written :
  exists m,
    __init__ GlobalModel_ns Run.config_dict = Ok m /\
    method GlobalModel_ns m "solve_for_I_coil"
      (solve_for_I_coil GlobalModel_ns ∅ m [1; 2]).2
      = Err (AttributeError "solve_for_I_coil") /\
    solve_for_I_coil GlobalModel_ns ∅ m [1; 2]
      = (<["I_coil" := VNum 1]> m, Err (AttributeError "solve")).
Proof.
  destruct model_exists as [m Hm]. exists m. split; [exact Hm|]. split.
  - apply (misplaced_unbound _ _ Hm). name_in.
  - apply (sweep_undefined _ _ Hm).
Qed.

(** C2: [P_loss] does not return the sum of the four channels.  On the
    instance built from the configuration of the runs, with [T_e] =
    30000 K inside the grid, the values of the four channels can all be
    read, and [P_loss] raises [AttributeError] for [K_diss]. *)
Theorem P_loss_raises_as_written :
  exists m,
    __init__ GlobalModel_ns Run.config_dict = Ok m /\
    in_range temperature_grid 30000 = true /\
    is_Ok (read_loss_inputs GlobalModel_ns m 30000) /\
    method GlobalModel_ns m "P_loss"
      (P_loss GlobalModel_ns ∅ m 30000 300 1e17 1e19)
    = Err (AttributeError "K_diss").
Proof.
  destruct model_exists as [m Hm]. exists m. split; [exact Hm|].
  split; [exact grid_contains_30000|]. split.
  - apply (read_loss_inputs_constructed _ _ Hm). exact grid_contains_30000.
  - rewrite method_bound.
    + apply (P_loss_undefined _ _ Hm). exact grid_contains_30000.
    + apply (constructed_absent _ _ _ Hm). name_not_in.
    + name_in.
Qed.

(** C6: a zero density is not detected.  The constructor accepts the
    configuration of the runs with [n_e_0 = 0] and stores the zero; on the
    instance, [solve] and [f_dy] raise [AttributeError], the exception of
    a missing attribute, and no exception about the density. *)
Theorem zero_density_accepted_as_written :
  exists m,
    __init__ GlobalModel_ns Run.config_zero_density = Ok m /\
    m !! "n_e_0" = Some (VNum 0) /\
    method GlobalModel_ns m "solve" (solve GlobalModel_ns ∅ m 0 0.05)
    = Err (AttributeError "solve") /\
    method GlobalModel_ns m "f_dy" (f_dy GlobalModel_ns ∅ m 0 Run.y_no_electrons)
    = Err (AttributeError "f_dy").
Proof.
  destruct model_zero_density_exists as [m Hm]. exists m.
  split; [exact Hm|]. split_and!.
  - destruct (init_attrs _ _ _ Hm) as (_ & _ & _ & _ & _ & HF & _).
    rewrite Forall_forall in HF.
    destruct (HF "n_e_0") as (x & Hx & ->); [name_in|].
    unfold Run.config_zero_density in Hx. rewrite lookup_insert_eq in Hx.
    by injection Hx as <-.
  - apply (misplaced_unbound _ _ Hm). name_in.
  - apply (misplaced_unbound _ _ Hm). name_in.
Qed.

(** C7: the missing definitions of the extended chemistry are not
    reported as a configuration error.  The constructor returns on the
    configuration of the runs although the instance has none of the
    attributes [K_diss], [K_vibr], [K_rot], [E_diss]; the error shows
    later, when a term is evaluated, as the [AttributeError] of the
    undefined [K_diss]: from [gas_heating], called as the module-level
    function it is, and from the method [P_loss]. *)
Theorem extended_chemistry_raises_as_written :
  exists m,
    __init__ GlobalModel_ns Run.config_dict = Ok m /\
    Forall (fun name => m !! name = None) ["K_diss"; "K_vibr"; "K_rot"; "E_diss"] /\
    module_function ∅ "gas_heating"
      (gas_heating GlobalModel_ns ∅ m 30000 300 1e17 1e19)
    = Err (AttributeError "K_diss") /\
    method GlobalModel_ns m "P_loss"
      (P_loss GlobalModel_ns ∅ m 30000 300 1e17 1e19)
    = Err (AttributeError "K_diss").
Proof.
  destruct model_exists as [m Hm]. exists m. split; [exact Hm|]. split_and!.
  - repeat (apply Forall_cons; split;
            [apply (constructed_absent _ _ _ Hm); name_not_in|]).
    constructor.
  - apply (gas_heating_module_call _ _ Hm).
  - rewrite method_bound.
    + apply (P_loss_undefined _ _ Hm). exact grid_contains_30000.
    + apply (constructed_absent _ _ _ Hm). name_not_in.
    + name_in.
Qed.

(** C9: no power is recorded.  On the instance built from the
    configuration of the runs, the call of [solve_for_I_coil] with the
    currents 1 and 2 raises [AttributeError] and returns no array, and
    [P_rf], which the sweep would record, is not an attribute of the
    instance either. *)
Theorem recorded_power_unreachable_as_written :
  exists m,
    __init__ GlobalModel_ns Run.config_dict = Ok m /\
    method_call GlobalModel_ns m "solve_for_I_coil"
      (solve_for_I_coil GlobalModel_ns ∅ m [1; 2])
    = (m, Err (AttributeError "solve_for_I_coil")) /\
    method GlobalModel_ns m "P_rf" (P_rf m 30000 300 1e17 1e19)
    = Err (AttributeError "P_rf").
Proof.
  destruct model_exists as [m Hm]. exists m. split; [exact Hm|]. split.
  - apply (method_call_unbound _ _ Hm). name_in.
  - apply (misplaced_unbound _ _ Hm). name_in.
Qed.

(** C3, witness: the instance built from the configuration of the runs. *)
Lemma rate_tables_quadrature_witness :
  exists m,
    __init__ GlobalModel_ns Run.config_dict = Ok m /\
    (length temperature_grid = N.to_nat 5000 /\
     (forall i, S i < N.to_nat 5000 ->
        temperature_grid !! i
        = Some (lit_nat i * ((lit 100 * e / k - lit 0.1 * e / k)
                             / lit_nat (N.to_nat 5000 - 1))
                + lit 0.1 * e / k)%py) /\
     last temperature_grid = Some (lit 100 * e / k)%py /\
     rate_table_of m "K_el" path_el /\
     rate_table_of m "K_ex" path_ex /\
     rate_table_of m "K_iz" path_iz).
Proof.
  destruct model_exists as [m Hm]. exists m.
  split; [exact Hm | exact (rate_tables_quadrature Run.config_dict m Hm)].
Defined.

(** C5, witness: [K_ex] at 2000000 K on the instance built from the
    configuration of the runs. *)
Lemma rate_tables_raise_outside_grid_witness :
  exists m,
    __init__ GlobalModel_ns Run.config_dict = Ok m /\
    "K_ex" ∈ ["K_el"; "K_ex"; "K_iz"] /\
    (in_range temperature_grid 2000000 = false ->
     attr_call m "K_ex" 2000000 = Err ValueError) /\
    (in_range temperature_grid 2000000 = true ->
     is_Ok (attr_call m "K_ex" 2000000)).
Proof.
  destruct model_exists as [m Hm]. exists m. split; [exact Hm|].
  assert (Hname : "K_ex" ∈ ["K_el"; "K_ex"; "K_iz"]) by name_in.
  split; [exact Hname|].
  exact (rate_tables_raise_outside_grid Run.config_dict m Hm "K_ex" Hname 2000000).
Defined.

(** C10, witness: the instance built from the configuration of the
    runs. *)
Lemma misplaced_functions_unreachable_witness :
  exists m,
    __init__ GlobalModel_ns Run.config_dict = Ok m /\
    "gas_heating" ∈ bound model_py /\
    (forall name, name ∈ misplaced -> name ≠ "gas_heating" -> name ∉ bound model_py) /\
    (forall name, name ∈ misplaced ->
       (name ∉ GlobalModel_ns) /\
       forall (A : Type) (body : res A),
         method GlobalModel_ns m name body = Err (AttributeError name)).
Proof.
  destruct model_exists as [m Hm]. exists m.
  split; [exact Hm | exact (misplaced_functions_unreachable Run.config_dict m Hm)].
Defined.

End ClaimRuns.

(** * Further properties of the code *)

(** ** Names that are not bound *)

Section BareNames.
Context {Ar : Arith} {Im : Imports Ar}.

Lemma module_function_unbound {A} G name (body : res A) :
  name ∉ bound model_py -> G !! name = None ->
  module_function G name body = Err (NameError name).
Proof. unfold module_function. intros Hname ->. by case_decide. Qed.

(** X1: [electron_heating] is a method of the class, and calling it raises
    [NameError] for [P_abs], for every instance the constructor returns
    and all arguments: its body calls [P_abs] by its bare name, which the
    module does not bind. *)
Theorem electron_heating_raises_NameError (cfg : gmap string num) (m : obj) :
  __init__ GlobalModel_ns cfg = Ok m ->
  forall T_e n_e n_g,
    method GlobalModel_ns m "electron_heating"
      (electron_heating GlobalModel_ns ∅ m T_e n_e n_g)
    = Err (NameError "P_abs").
Proof.
  intros Hinit T_e n_e n_g. rewrite method_bound.
  - unfold electron_heating.
    rewrite (module_function_unbound ∅ "P_abs");
      [reflexivity | name_not_in | apply lookup_empty].
  - apply (constructed_absent _ _ _ Hinit). name_not_in.
  - name_in.
Qed.

(** X2: a state with fewer than four entries makes the body of [f_dy]
    raise [IndexError], before any attribute of the instance is read. *)
Theorem f_dy_short_state ns G (self : obj) t (y : list num) :
  length y < 4 -> f_dy ns G self t y = Err IndexError.
Proof.
  intros Hlen. unfold f_dy, index.
  destruct y as [|T_e [|T_g [|n_e [|n_g rest]]]]; try reflexivity.
  simpl in Hlen. lia.
Qed.
End BareNames.

(** ** The constructor *)

Section ConstructorErrors.
Context {Ar : Arith} {Im : Imports Ar}.
Variable cfg : gmap string num.

Lemma init_chemistry_error x :
  load_chemistry GlobalModel_ns ∅ = Err x -> __init__ GlobalModel_ns cfg = Err x.
Proof.
  intros H. unfold __init__. cbv zeta.
  rewrite method_bound; [|apply lookup_empty|name_in]. by rewrite H.
Qed.

(** X3: the constructor raises what the first cross-section file that
    fails to load raises, whatever the configuration holds: the files are
    read in the order elastic, excitation, ionization, and the
    configuration is not looked at before the three are loaded. *)
Theorem init_propagates_load_error pre path post x :
  [path_el; path_ex; path_iz] = pre ++ path :: post ->
  Forall (fun p => is_Ok (load_cross_section p)) pre ->
  load_cross_section path = Err x ->
  __init__ GlobalModel_ns cfg = Err x.
Proof.
  unfold path_el, path_ex, path_iz. intros Hsplit Hpre Hpath.
  apply init_chemistry_error. unfold load_chemistry.
  destruct pre as [|p0 [|p1 [|p2 pre]]]; simplify_eq/=.
  - by rewrite Hpath.
  - apply Forall_cons in Hpre as [[[e_el cs_el] Hel] _].
    rewrite Hel, ret_bind. by rewrite Hpath.
  - apply Forall_cons in Hpre as [[[e_el cs_el] Hel] Hpre].
    apply Forall_cons in Hpre as [[[e_ex cs_ex] Hex] _].
    rewrite Hel, ret_bind, Hex, ret_bind. by rewrite Hpath.
  - destruct pre; discriminate.
Qed.
End ConstructorErrors.

Section BareNameRuns.
#[local] Existing Instance Float64.arith.
#[local] Existing Instance Float64.imports.
Local Open Scope float_scope.
#[local] Set Warnings "-inexact-float".

(** X1, witness: the instance built from the configuration of the runs. *)
Lemma electron_heating_raises_NameError_witness :
  exists m,
    __init__ GlobalModel_ns Run.config_dict = Ok m /\
    method GlobalModel_ns m "electron_heating"
      (electron_heating GlobalModel_ns ∅ m 30000 1e17 1e19)
    = Err (NameError "P_abs").
Proof.
  destruct model_exists as [m Hm]. exists m. split; [exact Hm|].
  exact (electron_heating_raises_NameError Run.config_dict m Hm 30000 1e17 1e19).
Defined.

(** X2, witness: a state of two entries. *)
Lemma f_dy_short_state_witness :
  length [30000; 300] < 4 /\
  f_dy repaired_ns Run.extended_globals Run.model_repaired 0 [30000; 300]
  = Err IndexError.
Proof.
  assert (Hlen : length [30000; 300] < 4) by (simpl; lia).
  split; [exact Hlen|].
  exact (f_dy_short_state (Ar := Float64.arith) (Im := Float64.imports)
           repaired_ns Run.extended_globals Run.model_repaired 0 _ Hlen).
Defined.

(** X3, witness: the excitation file cannot be read. *)
Lemma init_propagates_load_error_witness :
  [path_el; path_ex; path_iz] = [path_el] ++ path_ex :: [path_iz] /\
  Forall (fun p => is_Ok (load_cross_section (Imports := Float64.imports_unreadable path_ex) p))
         [path_el] /\
  load_cross_section (Imports := Float64.imports_unreadable path_ex) path_ex
  = Err OSError /\
  __init__ (Im := Float64.imports_unreadable path_ex) GlobalModel_ns Run.config_dict
  = Err OSError.
Proof.
  assert (Hpre : Forall (fun p => is_Ok (load_cross_section
                   (Imports := Float64.imports_unreadable path_ex) p)) [path_el]).
  { apply Forall_cons. split; [eexists; reflexivity | constructor]. }
  split_and!; [reflexivity | exact Hpre | reflexivity |].
  exact (init_propagates_load_error (Im := Float64.imports_unreadable path_ex)
           Run.config_dict [path_el] path_ex [path_iz] OSError eq_refl Hpre eq_refl).
Defined.
End BareNameRuns.

(** ** [eval_property] *)

Section EvalProperty.
Context {Ar : Arith} {Im : Imports Ar}.
Variable func : num -> num -> num -> num -> res num.
Variable y : list (list num).

Local Abbreviation row_value row v :=
  (exists T_e T_g n_e n_g rest,
      row = T_e :: T_g :: n_e :: n_g :: rest /\ func T_e T_g n_e n_g = Ok v).

Local Abbreviation turn :=
  (fun (acc : res (list num)) (i : nat) =>
     prop ← acc; v ← eval_row func y i; mret (<[i := v]> prop)).

Lemma eval_row_Ok i v :
  eval_row func y i = Ok v <-> exists row, y !! i = Some row /\ row_value row v.
Proof.
  unfold eval_row, index. destruct (y !! i) as [row|]; simpl.
  - destruct row as [|T_e [|T_g [|n_e [|n_g rest]]]]; simpl.
    1-4: split; [discriminate|];
      intros (? & [= <-] & (? & ? & ? & ? & ? & [=] & _)).
    split.
    + intros H. exists (T_e :: T_g :: n_e :: n_g :: rest). split; [done|].
      by exists T_e, T_g, n_e, n_g, rest.
    + intros (? & [= <-] & (? & ? & ? & ? & ? & [= <- <- <- <- <-] & H)).
      exact H.
  - split; [discriminate | by intros (? & ? & _)].
Qed.

Lemma eval_loop_Err x l : foldl turn (Err x) l = Err x.
Proof. induction l as [|i l IH]; [done | exact IH]. Qed.

Lemma eval_loop_Ok n : forall k prop r,
  foldl turn (Ok prop) (seq k n) = Ok r ->
  k + n <= length prop ->
  length r = length prop /\
  (forall j, j < k \/ k + n <= j -> r !! j = prop !! j) /\
  (forall j, k <= j < k + n -> exists v, eval_row func y j = Ok v /\ r !! j = Some v).
Proof.
  induction n as [|n IH]; intros k prop r Hr Hlen.
  - injection Hr as <-. split_and!; [done | done | intros j Hj; lia].
  - cbn [seq foldl] in Hr.
    destruct (eval_row func y k) as [v|x] eqn:Hk.
    + change (foldl turn (Ok (<[k := v]> prop)) (seq (S k) n) = Ok r) in Hr.
      apply IH in Hr as (Hl & Hout & Hin); rewrite ?length_insert in *; [|lia].
      split_and!; [done | |].
      * intros j Hj. rewrite Hout by lia. apply list_lookup_insert_ne. lia.
      * intros j Hj. destruct (decide (j = k)) as [->|Hne].
        -- exists v. split; [done|]. rewrite Hout by lia.
           apply list_lookup_insert_eq. lia.
        -- apply Hin. lia.
    + change (foldl turn (Err x) (seq (S k) n) = Ok r) in Hr.
      by rewrite eval_loop_Err in Hr.
Qed.

Lemma eval_loop_first_error n : forall k prop i x,
  k <= i < k + n ->
  (forall j, k <= j < i -> is_Ok (eval_row func y j)) ->
  eval_row func y i = Err x ->
  foldl turn (Ok prop) (seq k n) = Err x.
Proof.
  induction n as [|n IH]; intros k prop i x Hi Hbefore Herr; [lia|].
  cbn [seq foldl]. destruct (decide (i = k)) as [->|Hne].
  - change (foldl turn (v ← eval_row func y k; mret (<[k := v]> prop)) (seq (S k) n)
            = Err x).
    rewrite Herr. apply eval_loop_Err.
  - destruct (Hbefore k) as [v Hv]; [lia|].
    change (foldl turn (v ← eval_row func y k; mret (<[k := v]> prop)) (seq (S k) n)
            = Err x).
    rewrite Hv. apply (IH (S k) _ i); [lia | | done].
    intros j Hj. apply Hbefore. lia.
Qed.

Lemma eval_loop_total n : forall k prop,
  (forall j, k <= j < k + n -> is_Ok (eval_row func y j)) ->
  is_Ok (foldl turn (Ok prop) (seq k n)).
Proof.
  induction n as [|n IH]; intros k prop Hall; [by eexists|].
  cbn [seq foldl]. destruct (Hall k) as [v Hv]; [lia|].
  change (is_Ok (foldl turn (v ← eval_row func y k; mret (<[k := v]> prop))
                   (seq (S k) n))).
  rewrite Hv. apply IH. intros j Hj. apply Hall. lia.
Qed.

(** X4: [eval_property] returns an array exactly when every row of [y]
    has at least four entries and [func] returns on the first four of
    each; the array then has one entry per row, the value of [func] on
    that row, in the order of the rows. *)
Theorem eval_property_Ok (vs : list num) :
  eval_property func y = Ok vs <-> Forall2 (fun row v => row_value row v) y vs.
Proof.
  unfold eval_property. cbv zeta. split.
  - intros Hr. apply eval_loop_Ok in Hr as (Hlen & _ & Hin);
      rewrite ?length_zeros in *; [|lia].
    apply Forall2_same_length_lookup. split; [done|].
    intros i row v Hrow Hv.
    destruct (Hin i) as (v' & Hv' & Hlook).
    { apply lookup_lt_Some in Hrow. lia. }
    rewrite Hv in Hlook. injection Hlook as <-.
    apply eval_row_Ok in Hv' as (row' & Hrow' & Hval).
    rewrite Hrow in Hrow'. by injection Hrow' as <-.
  - intros HF. apply Forall2_same_length_lookup in HF as [Hlen HF].
    destruct (eval_loop_total (length y) 0 (zeros (length y))) as [r Hr].
    { intros j Hj. destruct (lookup_lt_is_Some_2 y j) as [row Hrow]; [lia|].
      destruct (lookup_lt_is_Some_2 vs j) as [v Hv]; [lia|].
      exists v. apply eval_row_Ok. exists row. split; [done|]. by apply (HF j). }
    rewrite Hr. f_equal.
    apply eval_loop_Ok in Hr as (Hlen' & _ & Hin);
      rewrite ?length_zeros in *; [|lia].
    apply list_eq_same_length with (length y); [lia | done |].
    intros i v v' Hi Hv Hv'.
    destruct (Hin i) as (w & Hw & Hlook); [lia|].
    rewrite Hv in Hlook. injection Hlook as <-.
    apply eval_row_Ok in Hw as (row & Hrow & Hval).
    destruct (HF i row v' Hrow Hv') as (? & ? & ? & ? & ? & -> & Hf').
    destruct Hval as (? & ? & ? & ? & ? & [= <- <- <- <- <-] & Hf).
    rewrite Hf in Hf'. by injection Hf'.
Qed.
End EvalProperty.

Section EvalPropertyErrors.
Context {Ar : Arith} {Im : Imports Ar}.
Variable func : num -> num -> num -> num -> res num.

(** X5: [eval_property] stops at the first row it cannot evaluate: when
    [func] returns on every row before it, a row with fewer than four
    entries makes the call raise [IndexError], and a row on which [func]
    raises makes the call raise that exception; the rows after it are not
    looked at. *)
Theorem eval_property_first_error (pre : list (list num)) row post x :
  Forall (fun r => exists T_e T_g n_e n_g rest,
              r = T_e :: T_g :: n_e :: n_g :: rest /\
              is_Ok (func T_e T_g n_e n_g)) pre ->
  (length row < 4 /\ x = IndexError) \/
  (exists T_e T_g n_e n_g rest,
      row = T_e :: T_g :: n_e :: n_g :: rest /\ func T_e T_g n_e n_g = Err x) ->
  eval_property func (pre ++ row :: post) = Err x.
Proof.
  intros Hpre Hrow. unfold eval_property. cbv zeta.
  apply (eval_loop_first_error _ _ _ 0 _ (length pre)).
  - rewrite length_app. simpl. lia.
  - intros j Hj. rewrite Forall_lookup in Hpre.
    destruct (lookup_lt_is_Some_2 pre j) as [r Hr]; [lia|].
    destruct (Hpre j r Hr) as (T_e & T_g & n_e & n_g & rest & -> & [v Hv]).
    exists v. apply eval_row_Ok. exists (T_e :: T_g :: n_e :: n_g :: rest).
    split; [by apply lookup_app_l_Some|]. by exists T_e, T_g, n_e, n_g, rest.
  - unfold eval_row, index. rewrite list_lookup_middle by done. simpl.
    destruct Hrow as [[Hlen ->] | (T_e & T_g & n_e & n_g & rest & -> & Hf)].
    + destruct row as [|T_e [|T_g [|n_e [|n_g rest]]]]; try reflexivity.
      simpl in Hlen. lia.
    + exact Hf.
Qed.
End EvalPropertyErrors.

(** ** [load_config] and the constructor *)

Section Config.
Context {Ar : Arith} {Im : Imports Ar}.

Lemma copy_key_None cfg key (self : obj) :
  cfg !! key = None -> copy_key cfg key self = Err (KeyError key).
Proof. unfold copy_key, getitem. by intros ->. Qed.

Lemma bind_ext {A B} (r : res A) (f g : A -> res B) :
  (forall a, f a = g a) -> r ≫= f = r ≫= g.
Proof. intros H. destruct r as [a|x]; [apply H | reflexivity]. Qed.

(** [load_config] stops at the first key the configuration lacks. *)
Lemma load_config_missing ns cfg (self : obj) pre key post :
  config_keys = pre ++ key :: post ->
  Forall (fun key' => is_Some (cfg !! key')) pre ->
  cfg !! key = None ->
  load_config ns cfg self = Err (KeyError key).
Proof.
  unfold config_keys, load_config. intros Hsplit Hpre Hkey.
  repeat (destruct pre as [|key' pre];
          [ injection Hsplit as <- _; by rewrite (copy_key_None _ _ _ Hkey)
          | apply Forall_cons in Hpre as [[? ?] Hpre];
            injection Hsplit as <- Hsplit;
            erewrite copy_key_Some by eassumption; rewrite ret_bind ]).
  destruct pre; discriminate.
Qed.

(** [load_config] reads the configuration at its fifteen keys only. *)
Lemma load_config_ext ns cfg cfg' (self : obj) :
  Forall (fun key => cfg !! key = cfg' !! key) config_keys ->
  load_config ns cfg self = load_config ns cfg' self.
Proof.
  unfold config_keys, load_config, copy_key, getitem. intros HF.
  repeat (apply Forall_cons in HF as [-> HF]).
  reflexivity.
Qed.

Lemma init_load_config ns cfg (self : obj) :
  "load_chemistry" ∈ ns -> "load_config" ∈ ns ->
  load_chemistry ns ∅ = Ok self ->
  self !! "load_config" = None ->
  __init__ ns cfg = load_config ns cfg self.
Proof.
  intros H1 H2 Hchem Hnone. unfold __init__. cbv zeta.
  rewrite method_bound by (done || apply lookup_empty).
  rewrite Hchem, ret_bind. by rewrite method_bound.
Qed.

Lemma chemistry_loaded :
  is_Ok (load_cross_section path_el) ->
  is_Ok (load_cross_section path_ex) ->
  is_Ok (load_cross_section path_iz) ->
  exists self,
    load_chemistry GlobalModel_ns ∅ = Ok self /\ self !! "load_config" = None.
Proof.
  intros Hel Hex Hiz.
  destruct (load_chemistry_total GlobalModel_ns ∅) as (self & Hself & Hframe);
    [name_in | apply lookup_empty | done..|].
  exists self. split; [done|]. rewrite Hframe; [apply lookup_empty | name_not_in].
Qed.

(** X7: with the files readable, a configuration that lacks a key makes
    the constructor raise [KeyError] for the first key it lacks, in the
    order in which [load_config] reads them. *)
Theorem init_missing_key (cfg : gmap string num) pre key post :
  is_Ok (load_cross_section path_el) ->
  is_Ok (load_cross_section path_ex) ->
  is_Ok (load_cross_section path_iz) ->
  config_keys = pre ++ key :: post ->
  Forall (fun key' => is_Some (cfg !! key')) pre ->
  cfg !! key = None ->
  __init__ GlobalModel_ns cfg = Err (KeyError key).
Proof.
  intros Hel Hex Hiz Hsplit Hpre Hkey.
  destruct (chemistry_loaded Hel Hex Hiz) as (self & Hself & Hnone).
  rewrite (init_load_config _ _ self); [|name_in|name_in|done|done].
  by eapply load_config_missing.
Qed.

(** X8: the constructor reads the configuration at the fifteen keys of
    [load_config] and nowhere else: two configurations that agree on
    these keys give the same result, instance or exception. *)
Theorem init_ignores_other_keys ns (cfg cfg' : gmap string num) :
  Forall (fun key => cfg !! key = cfg' !! key) config_keys ->
  __init__ ns cfg = __init__ ns cfg'.
Proof.
  intros HF. unfold __init__. cbv zeta. apply bind_ext. intros self.
  unfold method. destruct (self !! "load_config"); [reflexivity|].
  case_decide; [by apply load_config_ext | reflexivity].
Qed.
End Config.

(** ** What a constructed instance holds and returns *)

Section LoadConfig.
Context {Ar : Arith} {Im : Imports Ar}.

(** [load_config] either raises or returns the instance with the fifteen
    keys copied and [n_g_0] computed from five of them. *)
Lemma load_config_inv ns cfg (self m : obj) :
  "A_g" ∈ ns ->
  load_config ns cfg self = Ok m ->
  exists T_g_0 Q_g m_i beta_g R,
    cfg !! "T_g_0" = Some T_g_0 /\ cfg !! "Q_g" = Some Q_g /\
    cfg !! "m_i" = Some m_i /\ cfg !! "beta_g" = Some beta_g /\
    cfg !! "R" = Some R /\
    m !! "n_g_0"
    = Some (VNum (pressure T_g_0 Q_g (maxwellian_flux_speed T_g_0 m_i)
                    (beta_g * pi * R ** lit 2) / (k * T_g_0))%py).
Proof.
  intros Hns H. unfold load_config in H.
  repeat (let Hk := fresh "Hk" in
          apply bind_Ok in H as (? & Hk & H);
          apply copy_key_inv in Hk as (? & ? & ->)).
  set (self' := <["T_g_0" := _]> _) in H.
  eassert (HT : self' !! "T_g_0" = Some (VNum _)) by apply lookup_insert_eq.
  eassert (HQ : self' !! "Q_g" = Some (VNum _)).
  { unfold self'. rewrite !lookup_insert_ne by done. apply lookup_insert_eq. }
  eassert (Hm : self' !! "m_i" = Some (VNum _)).
  { unfold self'. rewrite !lookup_insert_ne by done. apply lookup_insert_eq. }
  eassert (Hb : self' !! "beta_g" = Some (VNum _)).
  { unfold self'. rewrite !lookup_insert_ne by done. apply lookup_insert_eq. }
  eassert (HR : self' !! "R" = Some (VNum _)).
  { unfold self'. rewrite !lookup_insert_ne by done. apply lookup_insert_eq. }
  clearbody self'.
  rewrite !(attr_num_Some self' "T_g_0" _ HT), ret_bind in H.
  rewrite (attr_num_Some self' "Q_g" _ HQ), !ret_bind in H.
  rewrite (attr_num_Some self' "m_i" _ Hm), ret_bind in H.
  unfold property in H. case_decide; [|done]. unfold A_g in H.
  rewrite (attr_num_Some self' "beta_g" _ Hb), ret_bind in H.
  rewrite (attr_num_Some self' "R" _ HR), !ret_bind in H.
  apply Ok_inj in H. subst m.
  do 5 eexists. split_and!; [eassumption.. | apply lookup_insert_eq].
Qed.
End LoadConfig.

Section Instance.
Context {Ar : Arith} {Im : Imports Ar}.
Variable cfg : gmap string num.
Variable m : obj.
Hypothesis Hinit : __init__ GlobalModel_ns cfg = Ok m.

Lemma constructed_config key :
  key ∈ config_keys -> exists x, cfg !! key = Some x /\ m !! key = Some (VNum x).
Proof using Hinit.
  intros Hkey.
  destruct (init_attrs _ _ _ Hinit) as (_ & _ & _ & _ & _ & HF & _).
  rewrite Forall_forall in HF. by apply HF.
Qed.

Lemma constructed_method {A} name (body : res A) :
  name ∈ GlobalModel_ns -> method GlobalModel_ns m name body = body.
Proof using Hinit.
  intros Hname. apply method_bound; [|done].
  apply (constructed_absent _ _ _ Hinit).
  intros Hattr. revert Hname. unfold attribute_names, config_keys in Hattr.
  simpl in Hattr.
  repeat (apply elem_of_cons in Hattr as [-> | Hattr]; [name_not_in |]).
  by apply elem_of_nil in Hattr.
Qed.

Lemma constructed_property name getter :
  name ∈ GlobalModel_ns -> property GlobalModel_ns m name getter = getter.
Proof. intros Hname. unfold property. by case_decide. Qed.
End Instance.

Section InstanceFacts.
Context {Ar : Arith} {Im : Imports Ar}.
Variable cfg : gmap string num.
Variable m : obj.

(** X9: the constructor sets exactly twenty-one attributes: the three
    rate tables, the two thresholds [E_iz = 12.127 e] and
    [E_ex = 11.6 e], the fifteen keys of the configuration, each with the
    value the configuration gives it, and [n_g_0]. *)
Theorem init_sets_attributes :
  __init__ GlobalModel_ns cfg = Ok m ->
  (forall name, is_Some (m !! name) <-> name ∈ attribute_names) /\
  (forall key, key ∈ config_keys ->
     exists x, cfg !! key = Some x /\ m !! key = Some (VNum x)) /\
  m !! "E_iz" = Some (VNum (lit 12.127 * e)%py) /\
  m !! "E_ex" = Some (VNum (lit 11.6 * e)%py).
Proof.
  intros Hinit.
  destruct (init_attrs _ _ _ Hinit)
    as (Hel & Hex & Hiz & HEiz & HEex & HF & [n_g_0 Hn] & Habsent).
  split_and!; [|by apply constructed_config|done|done].
  intros name. split.
  - intros Hsome. destruct (decide (name ∈ attribute_names)) as [|Hnot]; [done|].
    rewrite (Habsent name Hnot) in Hsome. by destruct Hsome.
  - unfold attribute_names. rewrite !elem_of_app. intros [Hchem | [Hkey | Hn']].
    + destruct Hel as (? & ? & ? & _ & Hel & _).
      destruct Hex as (? & ? & ? & _ & Hex & _).
      destruct Hiz as (? & ? & ? & _ & Hiz & _).
      repeat (apply elem_of_cons in Hchem as [-> | Hchem]; [by eexists|]).
      by apply elem_of_nil in Hchem.
    + destruct (constructed_config _ _ Hinit name Hkey) as (x & _ & ->). by eexists.
    + apply elem_of_cons in Hn' as [-> | Hn']; [by eexists | by apply elem_of_nil in Hn'].
Qed.

(** X10: the neutral density the constructor stores is the pressure of
    the cold flow divided by [k T_g_0], computed from the configured
    [T_g_0], [Q_g], [m_i], [beta_g] and [R]:
    [pressure(T_g_0, Q_g, maxwellian_flux_speed(T_g_0, m_i), beta_g pi R^2)
     / (k T_g_0)]. *)
Theorem init_n_g_0 :
  __init__ GlobalModel_ns cfg = Ok m ->
  exists T_g_0 Q_g m_i beta_g R,
    cfg !! "T_g_0" = Some T_g_0 /\ cfg !! "Q_g" = Some Q_g /\
    cfg !! "m_i" = Some m_i /\ cfg !! "beta_g" = Some beta_g /\
    cfg !! "R" = Some R /\
    m !! "n_g_0"
    = Some (VNum (pressure T_g_0 Q_g (maxwellian_flux_speed T_g_0 m_i)
                    (beta_g * pi * R ** lit 2) / (k * T_g_0))%py).
Proof.
  intros Hinit. unfold __init__ in Hinit. cbv zeta in Hinit.
  apply bind_Ok in Hinit as (self & _ & Hconf).
  apply method_Ok in Hconf as (_ & _ & Hconf).
  apply (load_config_inv GlobalModel_ns cfg self m); [name_in | done].
Qed.

(** X13: on a constructed instance [P_abs] called with an electron
    temperature outside the grid raises [ValueError]: the attributes it
    reads before the rate-table call are set by the constructor, and the
    call [self.K_el(T_e)] is evaluated before any arithmetic. *)
Theorem P_abs_outside_grid T_e n_e n_g :
  __init__ GlobalModel_ns cfg = Ok m ->
  in_range temperature_grid T_e = false ->
  method GlobalModel_ns m "P_abs" (P_abs m T_e n_e n_g) = Err ValueError.
Proof.
  intros Hinit Hout.
  destruct (constructed_config _ _ Hinit "R") as (R & _ & HR); [name_in|].
  destruct (constructed_config _ _ Hinit "L") as (L & _ & HL); [name_in|].
  destruct (constructed_config _ _ Hinit "N") as (N & _ & HN); [name_in|].
  destruct (constructed_config _ _ Hinit "omega") as (omega & _ & Ho); [name_in|].
  destruct (init_attrs _ _ _ Hinit) as (Hel & _).
  rewrite (constructed_method _ _ Hinit) by name_in. unfold P_abs.
  rewrite (attr_num_Some _ _ _ HR), (attr_num_Some _ _ _ HL),
    (attr_num_Some _ _ _ HN), (attr_num_Some _ _ _ Ho), !ret_bind.
  destruct (attr_call_rate_table m _ _ T_e Hel) as [ys ->].
  by rewrite Hout.
Qed.

(** X14: on a constructed instance [P_loss] called with an electron
    temperature outside the grid raises [ValueError], from its first
    rate-table call, before the undefined [K_diss] is reached. *)
Theorem P_loss_outside_grid G T_e T_g n_e n_g :
  __init__ GlobalModel_ns cfg = Ok m ->
  in_range temperature_grid T_e = false ->
  method GlobalModel_ns m "P_loss" (P_loss GlobalModel_ns G m T_e T_g n_e n_g)
  = Err ValueError.
Proof.
  intros Hinit Hout.
  destruct (init_attrs _ _ _ Hinit) as (_ & _ & Hiz & HEiz & _).
  rewrite (constructed_method _ _ Hinit) by name_in. unfold P_loss.
  rewrite (attr_num_Some _ _ _ HEiz), ret_bind.
  destruct (attr_call_rate_table m _ _ T_e Hiz) as [ys ->].
  by rewrite Hout.
Qed.
End InstanceFacts.

(** ** The sweep, where its functions can be called *)

Section SweepBody.
Context {Ar : Arith} {Im : Imports Ar}.
Variable ns : list string.
Variable G : gmap string num.

Lemma sweep_loop_length I_coil : forall (self : obj) i p solution p' solution',
  (sweep_loop ns G self i I_coil p solution).2 = Ok (p', solution') ->
  length p' = length p /\ length solution' = length solution.
Proof.
  induction I_coil as [|I_i rest IH]; intros self i p solution p' solution'.
  - cbn [sweep_loop snd]. by intros [= <- <-].
  - cbn [sweep_loop].
    destruct (sweep_point ns G (<["I_coil" := VNum I_i]> self))
      as [[p_i y_i]|x]; [|discriminate].
    intros Hr. apply IH in Hr as [-> ->]. by rewrite !length_insert.
Qed.

Lemma sweep_point_row (self : obj) p_i y_i :
  sweep_point ns G self = Ok (p_i, y_i) ->
  exists T_e T_g n_e n_g, y_i = [T_e; T_g; n_e; n_g].
Proof.
  unfold sweep_point. intros H.
  apply bind_Ok in H as (sol_y & _ & H).
  apply bind_Ok in H as (T_e & _ & H).
  apply bind_Ok in H as (T_g & _ & H).
  apply bind_Ok in H as (n_e & _ & H).
  apply bind_Ok in H as (n_g & _ & H).
  apply bind_Ok in H as (p_rf & _ & H).
  apply Ok_inj in H. injection H as _ <-. by exists T_e, T_g, n_e, n_g.
Qed.

Lemma sweep_single (self : obj) I_j p_j y_j :
  sweep_point ns G (<["I_coil" := VNum I_j]> self) = Ok (p_j, y_j) ->
  (solve_for_I_coil ns G self [I_j]).2 = Ok ([p_j], [y_j]).
Proof.
  intros H. unfold solve_for_I_coil. cbv zeta. cbn [sweep_loop length].
  rewrite H. reflexivity.
Qed.

(** X15: a sweep that returns gives two arrays of the length of the
    current array, and entry [j] of each is what the sweep over the
    single current [I_j], run on the instance the sweep was given, puts
    at index 0: no point depends on the points before it.  Every row of
    the state array has four entries. *)
Theorem sweep_pointwise (self : obj) I_coil p solution :
  (solve_for_I_coil ns G self I_coil).2 = Ok (p, solution) ->
  length p = length I_coil /\ length solution = length I_coil /\
  forall j I_j, I_coil !! j = Some I_j ->
    exists p_j y_j,
      (solve_for_I_coil ns G self [I_j]).2 = Ok ([p_j], [y_j]) /\
      p !! j = Some p_j /\ solution !! j = Some y_j /\ length y_j = 4.
Proof.
  intros Hsweep. split_and!.
  - unfold solve_for_I_coil in Hsweep. cbv zeta in Hsweep.
    apply sweep_loop_length in Hsweep as [-> _]. apply length_zeros.
  - unfold solve_for_I_coil in Hsweep. cbv zeta in Hsweep.
    apply sweep_loop_length in Hsweep as [_ ->]. apply length_replicate.
  - intros j I_j Hj.
    destruct (solve_for_I_coil_results _ _ _ _ _ _ Hsweep j I_j Hj)
      as (p_j & y_j & Hpoint & Hp & Hy).
    exists p_j, y_j. split_and!; [by apply sweep_single | done | done |].
    by destruct (sweep_point_row _ _ _ Hpoint) as (? & ? & ? & ? & ->).
Qed.

Lemma sweep_loop_first_error pre : forall (self : obj) i p solution I_j post x,
  Forall (fun I => is_Ok (sweep_point ns G (<["I_coil" := VNum I]> self))) pre ->
  sweep_point ns G (<["I_coil" := VNum I_j]> self) = Err x ->
  (sweep_loop ns G self i (pre ++ I_j :: post) p solution).2 = Err x /\
  (sweep_loop ns G self i (pre ++ I_j :: post) p solution).1 !! "I_coil"
  = Some (VNum I_j).
Proof.
  induction pre as [|I_0 pre IH]; intros self i p solution I_j post x Hpre Hfail.
  - cbn [app sweep_loop]. rewrite Hfail. split; [done | apply lookup_insert_eq].
  - apply Forall_cons in Hpre as [[[p_0 y_0] H0] Hpre].
    cbn [app sweep_loop]. rewrite H0. apply IH.
    + eapply Forall_impl; [exact Hpre|]. intros I HI. by rewrite insert_insert_eq.
    + by rewrite insert_insert_eq.
Qed.

(** X16: a sweep stops at the first current whose point raises: when the
    points of the currents before it return, the sweep raises the
    exception of that point, returns no array, and leaves [self.I_coil]
    at that current; the currents after it are not tried. *)
Theorem sweep_first_error (self : obj) pre I_j post x :
  Forall (fun I => is_Ok (sweep_point ns G (<["I_coil" := VNum I]> self))) pre ->
  sweep_point ns G (<["I_coil" := VNum I_j]> self) = Err x ->
  (solve_for_I_coil ns G self (pre ++ I_j :: post)).2 = Err x /\
  (solve_for_I_coil ns G self (pre ++ I_j :: post)).1 !! "I_coil"
  = Some (VNum I_j).
Proof. intros Hpre Hfail. unfold solve_for_I_coil. by apply sweep_loop_first_error. Qed.

(** X17: the rows of the state array of a sweep that returns are valid
    input for [eval_property]: for a callable that returns on every
    state, [eval_property] on that array returns one value per current. *)
Theorem eval_property_after_sweep (self : obj) I_coil p solution
    (func : num -> num -> num -> num -> res num) :
  (solve_for_I_coil ns G self I_coil).2 = Ok (p, solution) ->
  (forall T_e T_g n_e n_g, is_Ok (func T_e T_g n_e n_g)) ->
  exists vs, eval_property func solution = Ok vs /\ length vs = length I_coil.
Proof.
  intros Hsweep Hfunc.
  destruct (sweep_pointwise _ _ _ _ Hsweep) as (_ & Hlen & Hrows).
  destruct (eval_loop_total func solution (length solution) 0
              (zeros (length solution))) as [vs Hvs].
  { intros j Hj. destruct (lookup_lt_is_Some_2 I_coil j) as [I_j HI]; [lia|].
    destruct (Hrows j I_j HI) as (p_j & y_j & Hsingle & _ & Hy & _).
    unfold solve_for_I_coil in Hsingle. cbv zeta in Hsingle.
    cbn [sweep_loop length] in Hsingle.
    destruct (sweep_point ns G (<["I_coil" := VNum I_j]> self))
      as [[p' y']|] eqn:Hpoint; [|discriminate].
    injection Hsingle as _ <-.
    destruct (sweep_point_row _ _ _ Hpoint) as (T_e & T_g & n_e & n_g & ->).
    destruct (Hfunc T_e T_g n_e n_g) as [v Hv].
    exists v. apply eval_row_Ok. eexists. split; [exact Hy|].
    by exists T_e, T_g, n_e, n_g, []. }
  exists vs. split; [exact Hvs|].
  apply eval_property_Ok in Hvs. apply Forall2_length in Hvs. lia.
Qed.

(** X19: the body of [solve_for_I_coil] assigns [self.I_coil] and nothing
    else.  Every other attribute of the instance, the three rate tables
    among them, is after the body has run what it was before, whether it
    returned or raised; and after it has returned, [self.I_coil] is the
    last current of the array, not the configured one. *)
Theorem sweep_changes_only_I_coil (self : obj) (I_coil : list num) :
  (forall name, name ≠ "I_coil" ->
     (solve_for_I_coil ns G self I_coil).1 !! name = self !! name) /\
  (forall r I_n,
     (solve_for_I_coil ns G self I_coil).2 = Ok r -> last I_coil = Some I_n ->
     (solve_for_I_coil ns G self I_coil).1 !! "I_coil" = Some (VNum I_n)).
Proof.
  unfold solve_for_I_coil. split.
  - intros name Hname. by apply sweep_loop_frame.
  - intros r I_n. apply sweep_loop_last.
Qed.

(** X20: where the body of [solve_for_I_coil] returns, the power at index
    [i] is [P_rf] at the final state of the integration run with
    [self.I_coil] set to the [i]-th current: half the squared current
    times the sum of the inductive resistance and the resistance of the
    coil, [(1/2) (R_ind(...) + R_coil) I^2]. *)
Theorem recorded_power_is_P_rf (self : obj) I_coil p solution :
  (solve_for_I_coil ns G self I_coil).2 = Ok (p, solution) ->
  forall i I_i, I_coil !! i = Some I_i ->
  exists sol_y T_e T_g n_e n_g R L N omega K_el R_coil,
    solve ns G (<["I_coil" := VNum I_i]> self) (lit 0) (lit 5e-2) = Ok sol_y /\
    final sol_y 0 = Ok T_e /\ final sol_y 1 = Ok T_g /\
    final sol_y 2 = Ok n_e /\ final sol_y 3 = Ok n_g /\
    solution !! i = Some [T_e; T_g; n_e; n_g] /\
    attr_num self "R" = Ok R /\ attr_num self "L" = Ok L /\
    attr_num self "N" = Ok N /\ attr_num self "omega" = Ok omega /\
    attr_call self "K_el" T_e = Ok K_el /\ attr_num self "R_coil" = Ok R_coil /\
    p !! i = Some ((lit 1 / lit 2) * (R_ind R L N omega n_e n_g K_el + R_coil)
                   * I_i ** lit 2)%py.
Proof.
  intros Hsweep i I_i Hi.
  destruct (solve_for_I_coil_results _ _ _ _ _ _ Hsweep i I_i Hi)
    as (p_i & y_i & Hpoint & Hp & Hy).
  unfold sweep_point in Hpoint.
  apply bind_Ok in Hpoint as (sol_y & Hsol & Hpoint).
  apply method_Ok in Hsol as (_ & _ & Hsol).
  apply bind_Ok in Hpoint as (T_e & HTe & Hpoint).
  apply bind_Ok in Hpoint as (T_g & HTg & Hpoint).
  apply bind_Ok in Hpoint as (n_e & Hne & Hpoint).
  apply bind_Ok in Hpoint as (n_g & Hng & Hpoint).
  apply bind_Ok in Hpoint as (p_rf & Hrf & Hpoint).
  apply method_Ok in Hrf as (_ & _ & Hrf).
  apply Ok_inj in Hpoint. injection Hpoint as <- <-.
  apply P_rf_inv in Hrf
    as (R & L & N & omega & K_el & R_coil & I' & HR & HL & HN & Ho & HK & HRc & HI & ->).
  unfold attr_num, attr_call, attr in HR, HL, HN, Ho, HK, HRc, HI.
  rewrite lookup_insert_ne in HR, HL, HN, Ho, HK, HRc by done.
  rewrite lookup_insert_eq in HI. apply Ok_inj in HI. subst I'.
  exists sol_y, T_e, T_g, n_e, n_g, R, L, N, omega, K_el, R_coil.
  split_and!; done.
Qed.
End SweepBody.

Section SweepFrame.
Context {Ar : Arith} {Im : Imports Ar}.
Variable ns : list string.
Variable G : gmap string num.

(** X18: the ion flux, the thrust, the current density, the power loss
    and the geometric properties read nothing a sweep changes: after a
    sweep, returned or raised, they give on the instance what they gave
    before it. *)
Theorem sweep_keeps_beam_and_loss (self : obj) I_coil T_e T_g n_e n_g :
  let self' := (solve_for_I_coil ns G self I_coil).1 in
  flux_i self' T_e T_g n_e n_g = flux_i self T_e T_g n_e n_g /\
  thrust_i ns self' T_e T_g n_e n_g = thrust_i ns self T_e T_g n_e n_g /\
  j_i ns self' T_e T_g n_e n_g = j_i ns self T_e T_g n_e n_g /\
  P_loss ns G self' T_e T_g n_e n_g = P_loss ns G self T_e T_g n_e n_g /\
  property ns self' "V" (V self') = property ns self "V" (V self) /\
  property ns self' "A" (A self') = property ns self "A" (A self).
Proof.
  intros self'.
  assert (Hframe : forall name, name ≠ "I_coil" -> self' !! name = self !! name).
  { intros name Hname. unfold self', solve_for_I_coil. by apply sweep_loop_frame. }
  clearbody self'.
  unfold thrust_i, j_i, P_loss, property, method, flux_i, v_beam, A_i, V, A,
    attr_call, attr_num, attr.
  rewrite !Hframe by done. by split_and!.
Qed.
End SweepFrame.

Section FurtherRuns.
#[local] Existing Instance Float64.arith.
#[local] Existing Instance Float64.imports.
Local Open Scope float_scope.
#[local] Set Warnings "-inexact-float".

(** X5, witness: the second of three rows has two entries. *)
Lemma eval_property_first_error_witness :
  Forall (fun r => exists T_e T_g n_e n_g rest,
              r = T_e :: T_g :: n_e :: n_g :: rest /\
              is_Ok (flux_i Run.model_repaired T_e T_g n_e n_g))
         [[30000; 300; 1e17; 1e19]] /\
  (length [1; 2] < 4 /\ IndexError = IndexError \/
   exists T_e T_g n_e n_g rest,
     [1; 2] = T_e :: T_g :: n_e :: n_g :: rest /\
     flux_i Run.model_repaired T_e T_g n_e n_g = Err IndexError) /\
  eval_property (flux_i Run.model_repaired)
    ([[30000; 300; 1e17; 1e19]] ++ [1; 2] :: [[3; 3; 3; 3]])
  = Err IndexError.
Proof.
  assert (Hpre : Forall (fun r => exists T_e T_g n_e n_g rest,
                           r = T_e :: T_g :: n_e :: n_g :: rest /\
                           is_Ok (flux_i Run.model_repaired T_e T_g n_e n_g))
                        [[30000; 300; 1e17; 1e19]]).
  { apply Forall_cons. split; [|constructor].
    exists 30000, 300, 1e17, 1e19, []. split; [reflexivity|].
    eexists; reflexivity. }
  assert (Hrow : length [1; 2] < 4 /\ IndexError = IndexError \/
                 exists T_e T_g n_e n_g rest,
                   [1; 2] = T_e :: T_g :: n_e :: n_g :: rest /\
                   flux_i Run.model_repaired T_e T_g n_e n_g = Err IndexError).
  { left. split; [simpl; lia | reflexivity]. }
  split_and!; [exact Hpre | exact Hrow |].
  exact (eval_property_first_error (Ar := Float64.arith)
           (flux_i Run.model_repaired) _ _ [[3; 3; 3; 3]] IndexError Hpre Hrow).
Defined.

(** X7, witness: the configuration of the runs without [Q_g]. *)
Lemma init_missing_key_witness :
  is_Ok (load_cross_section path_el) /\
  is_Ok (load_cross_section path_ex) /\
  is_Ok (load_cross_section path_iz) /\
  config_keys
  = ["R"; "L"; "m_i"] ++ "Q_g"
      :: ["beta_g"; "kappa"; "beta_i"; "V_grid"; "omega"; "N"; "R_coil";
          "I_coil"; "T_e_0"; "n_e_0"; "T_g_0"] /\
  Forall (fun key' => is_Some (delete "Q_g" Run.config_dict !! key'))
         ["R"; "L"; "m_i"] /\
  delete "Q_g" Run.config_dict !! "Q_g" = None /\
  __init__ GlobalModel_ns (delete "Q_g" Run.config_dict) = Err (KeyError "Q_g").
Proof.
  assert (Hpre : Forall (fun key' => is_Some (delete "Q_g" Run.config_dict !! key'))
                        ["R"; "L"; "m_i"]).
  { repeat (apply Forall_cons; split; [eexists; reflexivity|]). constructor. }
  assert (Hkey : delete "Q_g" Run.config_dict !! "Q_g" = None) by reflexivity.
  split_and!; [apply cross_sections_load.. | reflexivity | exact Hpre | exact Hkey |].
  exact (init_missing_key (delete "Q_g" Run.config_dict)
           ["R"; "L"; "m_i"] "Q_g"
           ["beta_g"; "kappa"; "beta_i"; "V_grid"; "omega"; "N"; "R_coil";
            "I_coil"; "T_e_0"; "n_e_0"; "T_g_0"]
           (cross_sections_load path_el) (cross_sections_load path_ex)
           (cross_sections_load path_iz) eq_refl Hpre Hkey).
Defined.

(** X8, witness: the configuration of the runs with one more key. *)
Lemma init_ignores_other_keys_witness :
  Forall (fun key => Run.config_dict !! key
                     = <["comment" := 1]> Run.config_dict !! key) config_keys /\
  __init__ GlobalModel_ns Run.config_dict
  = __init__ GlobalModel_ns (<["comment" := 1]> Run.config_dict).
Proof.
  assert (HF : Forall (fun key => Run.config_dict !! key
                                  = <["comment" := 1]> Run.config_dict !! key)
                      config_keys).
  { unfold config_keys.
    repeat (apply Forall_cons; split; [reflexivity|]). constructor. }
  split; [exact HF|].
  exact (init_ignores_other_keys GlobalModel_ns Run.config_dict _ HF).
Defined.

(** X9, witness: the instance built from the configuration of the runs. *)
Lemma init_sets_attributes_witness :
  exists m,
    __init__ GlobalModel_ns Run.config_dict = Ok m /\
    (forall name, is_Some (m !! name) <-> name ∈ attribute_names) /\
    (forall key, key ∈ config_keys ->
       exists x, Run.config_dict !! key = Some x /\ m !! key = Some (VNum x)) /\
    m !! "E_iz" = Some (VNum (lit 12.127 * e)%py) /\
    m !! "E_ex" = Some (VNum (lit 11.6 * e)%py).
Proof.
  destruct model_exists as [m Hm]. exists m.
  split; [exact Hm | exact (init_sets_attributes Run.config_dict m Hm)].
Defined.

(** X10, witness: the instance built from the configuration of the runs. *)
Lemma init_n_g_0_witness :
  exists m,
    __init__ GlobalModel_ns Run.config_dict = Ok m /\
    exists T_g_0 Q_g m_i beta_g R,
      Run.config_dict !! "T_g_0" = Some T_g_0 /\
      Run.config_dict !! "Q_g" = Some Q_g /\
      Run.config_dict !! "m_i" = Some m_i /\
      Run.config_dict !! "beta_g" = Some beta_g /\
      Run.config_dict !! "R" = Some R /\
      m !! "n_g_0"
      = Some (VNum (pressure T_g_0 Q_g (maxwellian_flux_speed T_g_0 m_i)
                      (beta_g * pi * R ** lit 2) / (k * T_g_0))%py).
Proof.
  destruct model_exists as [m Hm]. exists m.
  split; [exact Hm | exact (init_n_g_0 Run.config_dict m Hm)].
Defined.

Lemma grid_excludes_2000000 : in_range temperature_grid 2000000 = false.
Proof. vm_compute. reflexivity. Qed.

(** X13, witness: [T_e] = 2000000 K on the instance built from the
    configuration of the runs. *)
Lemma P_abs_outside_grid_witness :
  exists m,
    __init__ GlobalModel_ns Run.config_dict = Ok m /\
    in_range temperature_grid 2000000 = false /\
    method GlobalModel_ns m "P_abs" (P_abs m 2000000 1e17 1e19) = Err ValueError.
Proof.
  destruct model_exists as [m Hm]. exists m. split; [exact Hm|].
  split; [exact grid_excludes_2000000|].
  exact (P_abs_outside_grid Run.config_dict m 2000000 1e17 1e19 Hm
           grid_excludes_2000000).
Defined.

(** X14, witness: [T_e] = 2000000 K on the instance built from the
    configuration of the runs. *)
Lemma P_loss_outside_grid_witness :
  exists m,
    __init__ GlobalModel_ns Run.config_dict = Ok m /\
    in_range temperature_grid 2000000 = false /\
    method GlobalModel_ns m "P_loss"
      (P_loss GlobalModel_ns ∅ m 2000000 300 1e17 1e19)
    = Err ValueError.
Proof.
  destruct model_exists as [m Hm]. exists m. split; [exact Hm|].
  split; [exact grid_excludes_2000000|].
  exact (P_loss_outside_grid Run.config_dict m ∅ 2000000 300 1e17 1e19 Hm
           grid_excludes_2000000).
Defined.

(** X15, witness: the sweep over the currents 1 and 2. *)
Lemma sweep_pointwise_witness :
  exists p solution,
    (solve_for_I_coil repaired_ns Run.extended_globals Run.model_repaired [1; 2]).2
    = Ok (p, solution) /\
    length p = length [1; 2] /\ length solution = length [1; 2] /\
    forall j I_j, [1; 2] !! j = Some I_j ->
      exists p_j y_j,
        (solve_for_I_coil repaired_ns Run.extended_globals Run.model_repaired [I_j]).2
        = Ok ([p_j], [y_j]) /\
        p !! j = Some p_j /\ solution !! j = Some y_j /\ length y_j = 4%nat.
Proof.
  eassert (Hr : (solve_for_I_coil repaired_ns Run.extended_globals
                   Run.model_repaired [1; 2]).2 = Ok (_, _)) by reflexivity.
  do 2 eexists. split; [exact Hr|].
  exact (sweep_pointwise (Ar := Float64.arith) (Im := Float64.imports)
           repaired_ns Run.extended_globals Run.model_repaired [1; 2] _ _ Hr).
Defined.

(** X16, witness: the second of the currents 1, 1e9, 2 drives the
    electron temperature out of the grid. *)
Lemma sweep_first_error_witness :
  Forall (fun I => is_Ok (sweep_point repaired_ns Run.extended_globals
                            (<["I_coil" := VNum I]> Run.model_repaired))) [1] /\
  sweep_point repaired_ns Run.extended_globals
    (<["I_coil" := VNum 1e9]> Run.model_repaired) = Err ValueError /\
  (solve_for_I_coil repaired_ns Run.extended_globals Run.model_repaired
     ([1] ++ 1e9 :: [2])).2 = Err ValueError /\
  (solve_for_I_coil repaired_ns Run.extended_globals Run.model_repaired
     ([1] ++ 1e9 :: [2])).1 !! "I_coil" = Some (VNum 1e9).
Proof.
  assert (Hpre : Forall (fun I => is_Ok (sweep_point repaired_ns Run.extended_globals
                           (<["I_coil" := VNum I]> Run.model_repaired))) [1]).
  { apply Forall_cons. split; [eexists; reflexivity | constructor]. }
  assert (Hfail : sweep_point repaired_ns Run.extended_globals
                    (<["I_coil" := VNum 1e9]> Run.model_repaired) = Err ValueError)
    by reflexivity.
  split; [exact Hpre|]. split; [exact Hfail|].
  exact (sweep_first_error (Ar := Float64.arith) (Im := Float64.imports)
           repaired_ns Run.extended_globals Run.model_repaired [1] 1e9 [2]
           ValueError Hpre Hfail).
Defined.

(** X17, witness: the ion flux evaluated on the states of the sweep over
    the currents 1 and 2. *)
Lemma eval_property_after_sweep_witness :
  exists p solution,
    (solve_for_I_coil repaired_ns Run.extended_globals Run.model_repaired [1; 2]).2
    = Ok (p, solution) /\
    (forall T_e T_g n_e n_g, is_Ok (flux_i Run.model_repaired T_e T_g n_e n_g)) /\
    exists vs,
      eval_property (flux_i Run.model_repaired) solution = Ok vs /\
      length vs = length [1; 2].
Proof.
  eassert (Hr : (solve_for_I_coil repaired_ns Run.extended_globals
                   Run.model_repaired [1; 2]).2 = Ok (_, _)) by reflexivity.
  assert (Hfunc : forall T_e T_g n_e n_g,
             is_Ok (flux_i Run.model_repaired T_e T_g n_e n_g)).
  { intros T_e T_g n_e n_g. eexists; reflexivity. }
  do 2 eexists. split; [exact Hr|]. split; [exact Hfunc|].
  exact (eval_property_after_sweep (Ar := Float64.arith) (Im := Float64.imports)
           repaired_ns Run.extended_globals Run.model_repaired [1; 2] _ _
           (flux_i Run.model_repaired) Hr Hfunc).
Defined.

(** X19, witness: the sweep over the currents 1 and 2 leaves [K_el] as it
    was and ends with [I_coil = 2]. *)
Lemma sweep_changes_only_I_coil_witness :
  "K_el" ≠ "I_coil" /\
  (solve_for_I_coil repaired_ns Run.extended_globals Run.model_repaired [1; 2]).1
    !! "K_el" = Run.model_repaired !! "K_el" /\
  is_Ok (solve_for_I_coil repaired_ns Run.extended_globals Run.model_repaired [1; 2]).2 /\
  last [1; 2] = Some 2 /\
  (solve_for_I_coil repaired_ns Run.extended_globals Run.model_repaired [1; 2]).1
    !! "I_coil" = Some (VNum 2).
Proof.
  destruct (sweep_changes_only_I_coil (Ar := Float64.arith) (Im := Float64.imports)
              repaired_ns Run.extended_globals
              Run.model_repaired [1; 2]) as [Hframe Hlast].
  assert (Hne : "K_el" ≠ "I_coil") by name_not_in.
  eassert (Hr : (solve_for_I_coil repaired_ns Run.extended_globals
                   Run.model_repaired [1; 2]).2 = Ok _) by reflexivity.
  split_and!; [exact Hne | exact (Hframe "K_el" Hne) | eexists; exact Hr
              | reflexivity | exact (Hlast _ 2 Hr eq_refl)].
Defined.

(** X20, witness: index 1 of the sweep over the currents 1 and 2. *)
Lemma recorded_power_is_P_rf_witness :
  exists p solution,
    (solve_for_I_coil repaired_ns Run.extended_globals Run.model_repaired [1; 2]).2
      = Ok (p, solution) /\
    [1; 2] !! 1%nat = Some 2 /\
    exists sol_y T_e T_g n_e n_g R L N omega K_el R_coil,
      solve repaired_ns Run.extended_globals
        (<["I_coil" := VNum 2]> Run.model_repaired) (lit 0) (lit 5e-2) = Ok sol_y /\
      final sol_y 0 = Ok T_e /\ final sol_y 1 = Ok T_g /\
      final sol_y 2 = Ok n_e /\ final sol_y 3 = Ok n_g /\
      solution !! 1%nat = Some [T_e; T_g; n_e; n_g] /\
      attr_num Run.model_repaired "R" = Ok R /\
      attr_num Run.model_repaired "L" = Ok L /\
      attr_num Run.model_repaired "N" = Ok N /\
      attr_num Run.model_repaired "omega" = Ok omega /\
      attr_call Run.model_repaired "K_el" T_e = Ok K_el /\
      attr_num Run.model_repaired "R_coil" = Ok R_coil /\
      p !! 1%nat = Some ((lit 1 / lit 2) * (R_ind R L N omega n_e n_g K_el + R_coil)
                         * 2 ** lit 2)%py.
Proof.
  eassert (Hr : (solve_for_I_coil repaired_ns Run.extended_globals
                   Run.model_repaired [1; 2]).2 = Ok (_, _)) by reflexivity.
  do 2 eexists. split; [exact Hr|]. split; [reflexivity|].
  exact (recorded_power_is_P_rf (Ar := Float64.arith) (Im := Float64.imports)
           repaired_ns Run.extended_globals Run.model_repaired
           [1; 2] _ _ Hr 1%nat 2 eq_refl).
Defined.
End FurtherRuns.
